(** * GIS Shapefile Visualizer: the state logic of [App.jsx]

    A shallow embedding of the handlers of the [App] component
    (src/shapefile-uploader/src/App.jsx) and the properties of the
    specification checked against them.

    React state is modelled explicitly.  A handler is a closure created by
    one render: it reads the state variables of that render (its
    _snapshot_) and calls state setters.  A handler is therefore a function
    of its snapshot that produces the ordered list of calls it makes on the
    outside world ([Effect]); a setter called with a value replaces the
    state variable, a setter called with a function is applied to the value
    current when the update is processed. *)

From Stdlib Require Import ZArith String Ascii List Bool Lia DecimalString.
Import ListNotations.

Set Warnings "-register-all".

Local Open Scope string_scope.
Local Open Scope list_scope.

(** ** JavaScript values *)

(** Values that reach the handlers: the result of [response.json()],
    feature ids and feature properties.  Numbers are the integers. *)
Inductive JsVal : Type :=
| JUndefined
| JNull
| JBool (b : bool)
| JNum (n : Z)
| JStr (s : string)
| JArr (items : list JsVal)
| JObj (fields : list (string * JsVal)).

(** A thrown [Error]; the handlers only ever read [error.message]. *)
Record JsError : Type := mkError { message : string }.

(** ToBoolean, as used by [if (v)], [v || w] and [v && w]. *)
Definition truthy (v : JsVal) : bool :=
  match v with
  | JUndefined | JNull => false
  | JBool b => b
  | JNum n => negb (n =? 0)%Z
  | JStr s => negb (s =? "")
  | JArr _ | JObj _ => true
  end.

(** [typeof v === 'string'] *)
Definition is_string (v : JsVal) : bool :=
  match v with JStr _ => true | _ => false end.

Definition Z_to_string (n : Z) : string := NilZero.string_of_int (Z.to_int n).
Definition nat_to_string (n : nat) : string := NilZero.string_of_uint (Nat.to_uint n).

(** ToString, as applied by [new Error(v)] to its argument, on the values
    whose text is fixed by the value alone: strings, booleans, [null],
    [undefined], the safe integers (below 2^53 in magnitude, printed in
    decimal), arrays of such values, and objects, taken without fields
    named [toString] or [valueOf] of their own.  The theorems that name a
    reason name it for strings. *)
Fixpoint toString (v : JsVal) : string :=
  match v with
  | JUndefined => "undefined"
  | JNull => "null"
  | JBool true => "true"
  | JBool false => "false"
  | JNum n => Z_to_string n
  | JStr s => s
  | JArr items =>
      (fix join (l : list JsVal) : string :=
         match l with
         | [] => ""
         | x :: r =>
             let sx := match x with
                       | JUndefined | JNull => ""
                       | _ => toString x
                       end in
             match r with
             | [] => sx
             | _ :: _ => (sx ++ "," ++ join r)%string
             end
         end) items
  | JObj _ => "[object Object]"
  end.

(** The own field [key] of an object, whose keys are distinct. *)
Fixpoint lookup_field (key : string) (fields : list (string * JsVal)) : JsVal :=
  match fields with
  | [] => JUndefined
  | (k, v) :: r => if k =? key then v else lookup_field key r
  end.

(** The message of the TypeError raised by a property read on [null] or
    [undefined] (the wording is the engine's; nothing below depends on it). *)
Definition null_read_message (v : JsVal) (key : string) : string :=
  ("Cannot read properties of " ++ toString v ++ " (reading '" ++ key ++ "')")%string.

(** The property read [v.key] for a key that is neither an index nor
    [length] nor found on a prototype (the handlers read [error] only):
    a TypeError on [null] and [undefined], the own field of an object,
    [undefined] on every other value. *)
Definition get_prop (v : JsVal) (key : string) : JsError + JsVal :=
  match v with
  | JUndefined | JNull => inl (mkError (null_read_message v key))
  | JObj fields => inr (lookup_field key fields)
  | _ => inr JUndefined
  end.

(** [new Error(v)]: the message is ToString of the argument, and the empty
    string when the argument is [undefined]. *)
Definition new_Error (v : JsVal) : JsError :=
  match v with
  | JUndefined => mkError ""
  | _ => mkError (toString v)
  end.

(** ** Strings *)

(** [String.prototype.toLowerCase] on the ASCII letters.  The strings are
    UTF-8 byte strings; no character outside ASCII lowercases to one of the
    letters of "shp", "shx" and "dbf", and the byte of "." occurs in no
    multi-byte sequence, so the extension test below is the one of the
    source. *)
Definition lower_ascii (c : ascii) : ascii :=
  let n := nat_of_ascii c in
  if (65 <=? n)%nat && (n <=? 90)%nat then ascii_of_nat (n + 32) else c.

Fixpoint toLowerCase (s : string) : string :=
  match s with
  | EmptyString => EmptyString
  | String c r => String (lower_ascii c) (toLowerCase r)
  end.

(** [s.split(sep)] for a one-character separator: never empty. *)
Fixpoint split (sep : ascii) (s : string) : list string :=
  match s with
  | EmptyString => [EmptyString]
  | String c r =>
      if Ascii.eqb c sep then EmptyString :: split sep r
      else match split sep r with
           | [] => [String c EmptyString]
           | h :: t => String c h :: t
           end
  end.

(** [Array.prototype.pop]'s result: the last element, [undefined] on the
    empty array. *)
Fixpoint pop (l : list string) : option string :=
  match l with
  | [] => None
  | [x] => Some x
  | _ :: r => pop r
  end.

(** ** Data *)

Module File.
Record t : Type := mk { name : string; size : Z }.
End File.

Module Layer.
Record t : Type := mk {
  id : Z;
  name : string;
  color : string;
  data : JsVal;
  visible : bool
}.
(** [{ ...layer, visible }] *)
Definition with_visible (l : t) (v : bool) : t :=
  mk (id l) (name l) (color l) (data l) v.
End Layer.

Module ActiveFeature.
Record t : Type := mk { layerId : Z; featureId : JsVal }.
End ActiveFeature.

Module StatusMessage.
Record t : Type := mk { text : string; type : string; visible : bool }.
(** [{ ...prev, visible: false }] *)
Definition hidden (m : t) : t := mk (text m) (type m) false.
End StatusMessage.

(** The state variables of [App] (lines 14-20). *)
Record AppState : Type := mkState {
  selectedFiles : list File.t;
  selectedColor : string;
  layers : list Layer.t;
  activeFeature : option ActiveFeature.t;
  activeProperties : JsVal;
  statusMessage : StatusMessage.t;
  basemap : string
}.

Definition initialState : AppState :=
  mkState [] "#3388ff" [] None JNull (StatusMessage.mk "" "" false) "osm".

(** ** Effects *)

(** What a handler does to the outside world, in program order. *)
Inductive Effect : Type :=
| SetSelectedFiles (files : list File.t)
| SetLayers (update : list Layer.t -> list Layer.t)
| SetActiveFeature (a : option ActiveFeature.t)
| SetActiveProperties (p : JsVal)
| SetStatusMessage (m : StatusMessage.t)
| UpdateStatusMessage (update : StatusMessage.t -> StatusMessage.t)
| Fetch (url : string) (method : string) (formData : list (string * File.t))
| ConsoleError (label : string) (e : JsError)
| SetTimeout (callback : list Effect) (delay : Z).

(** Processing one state update. *)
Definition apply_effect (st : AppState) (e : Effect) : AppState :=
  match e with
  | SetSelectedFiles fs =>
      mkState fs (selectedColor st) (layers st) (activeFeature st)
        (activeProperties st) (statusMessage st) (basemap st)
  | SetLayers f =>
      mkState (selectedFiles st) (selectedColor st) (f (layers st))
        (activeFeature st) (activeProperties st) (statusMessage st) (basemap st)
  | SetActiveFeature a =>
      mkState (selectedFiles st) (selectedColor st) (layers st) a
        (activeProperties st) (statusMessage st) (basemap st)
  | SetActiveProperties p =>
      mkState (selectedFiles st) (selectedColor st) (layers st)
        (activeFeature st) p (statusMessage st) (basemap st)
  | SetStatusMessage m =>
      mkState (selectedFiles st) (selectedColor st) (layers st)
        (activeFeature st) (activeProperties st) m (basemap st)
  | UpdateStatusMessage f =>
      mkState (selectedFiles st) (selectedColor st) (layers st)
        (activeFeature st) (activeProperties st) (f (statusMessage st))
        (basemap st)
  | Fetch _ _ _ | ConsoleError _ _ | SetTimeout _ _ => st
  end.

(** The state once every update of a handler is processed. *)
Definition run (effs : list Effect) (st : AppState) : AppState :=
  fold_left apply_effect effs st.

(** ** A handler's computation: effects so far, then a value or a throw *)

Definition M (A : Type) : Type := (list Effect * (JsError + A))%type.

Definition ret {A} (a : A) : M A := ([], inr a).
Definition throw {A} (e : JsError) : M A := ([], inl e).
Definition emit (e : Effect) : M unit := ([e], inr tt).
Definition lift {A} (r : JsError + A) : M A := ([], r).

Definition bind {A B} (m : M A) (k : A -> M B) : M B :=
  match m with
  | (es, inl e) => (es, inl e)
  | (es, inr a) => let '(es', r) := k a in (es ++ es', r)
  end.

Notation "x <- m ;; k" := (bind m (fun x => k))
  (at level 61, m at next level, right associativity).
Notation "m ;;; k" := (bind m (fun _ => k))
  (at level 61, right associativity).

(** [try { body } catch (error) { handler(error) }] *)
Definition try_catch {A} (body : M A) (handler : JsError -> M A) : M A :=
  match body with
  | (es, inl e) => let '(es', r) := handler e in (es ++ es', r)
  | (es, inr a) => (es, inr a)
  end.

(** [try { body } finally { fin }] for a [fin] that does not throw. *)
Definition finally_ {A} (body : M A) (fin : list Effect) : M A :=
  (fst body ++ fin, snd body).

(** ** File selection (lines 24-54) *)

(** [file.name.split('.').pop().toLowerCase()]; [pop] of the empty array
    is [undefined], whose [toLowerCase] read throws. *)
Definition extension (name : string) : JsError + string :=
  match pop (split "." name) with
  | Some s => inr (toLowerCase s)
  | None => inl (mkError (null_read_message JUndefined "toLowerCase"))
  end.

(** [['shp', 'shx', 'dbf'].includes(extension)] *)
Definition is_relevant (ext : string) : bool :=
  existsb (String.eqb ext) ["shp"; "shx"; "dbf"].

Definition getMissingFiles (hasShp hasShx hasDbf : bool) : list string :=
  (if negb hasShp then [".shp"] else []) ++
  (if negb hasShx then [".shx"] else []) ++
  (if negb hasDbf then [".dbf"] else []).

(** The variables of the loop of [handleFiles]. *)
Record Scan : Type := mkScan {
  newSelectedFiles : list File.t;
  hasShp : bool;
  hasShx : bool;
  hasDbf : bool
}.

(** One iteration of the loop (lines 32-41). *)
Definition scan_file (acc : Scan) (file : File.t) : JsError + Scan :=
  match extension (File.name file) with
  | inl e => inl e
  | inr ext =>
      if is_relevant ext then
        inr (mkScan (newSelectedFiles acc ++ [file])
               (if ext =? "shp" then true else hasShp acc)
               (if ext =? "shx" then true else hasShx acc)
               (if ext =? "dbf" then true else hasDbf acc))
      else inr acc
  end.

Fixpoint scan_files (acc : Scan) (files : list File.t) : JsError + Scan :=
  match files with
  | [] => inr acc
  | file :: rest =>
      match scan_file acc file with
      | inl e => inl e
      | inr acc' => scan_files acc' rest
      end
  end.

Record Completeness : Type := mkCompleteness {
  isComplete : bool;
  missingFiles : list string
}.

Definition handleFiles (files : list File.t) : M Completeness :=
  acc <- lift (scan_files (mkScan [] false false false) files) ;;
  emit (SetSelectedFiles (newSelectedFiles acc)) ;;;
  ret (mkCompleteness (hasShp acc && hasShx acc && hasDbf acc)
         (getMissingFiles (hasShp acc) (hasShx acc) (hasDbf acc))).

(** ** Layers (lines 127-152) *)

(** [addGeoJsonLayer(geojsonData)] in the closure of the render [snap];
    [now] is what [Date.now()] reads. *)
Definition addGeoJsonLayer (snap : AppState) (now : Z) (geojsonData : JsVal)
  : M unit :=
  let layerName :=
    ("Layer " ++ nat_to_string (length (layers snap) + 1))%string in
  let newLayer :=
    Layer.mk now layerName (selectedColor snap) geojsonData true in
  emit (SetLayers (fun prevLayers => prevLayers ++ [newLayer])).

Definition toggle_layer (layerId : Z) (visible : bool) (layer : Layer.t)
  : Layer.t :=
  if (Layer.id layer =? layerId)%Z then Layer.with_visible layer visible
  else layer.

Definition toggleLayerVisibility (layerId : Z) (visible : bool) : M unit :=
  emit (SetLayers (fun prevLayers => map (toggle_layer layerId visible) prevLayers)).

(** ** Upload (lines 64-125) *)

(** How the two awaits of [uploadShapefile] settle: [fetch] rejects, or it
    resolves to a response with a status and [response.json()] rejects or
    resolves to the parsed body. *)
Inductive FetchResult : Type :=
| Rejected (e : JsError)
| Responded (status : Z) (json : JsError + JsVal).

(** [response.ok] *)
Definition response_ok (status : Z) : bool :=
  ((200 <=? status) && (status <=? 299))%Z.

Definition upload_url : string := "http://127.0.0.1:8000/upload/".

Definition loading_message : StatusMessage.t :=
  StatusMessage.mk "Uploading shapefile..." "loading" true.
Definition success_message : StatusMessage.t :=
  StatusMessage.mk "Shapefile loaded successfully!" "success" true.
Definition error_message (error : JsError) : StatusMessage.t :=
  StatusMessage.mk ("Error: " ++ message error)%string "error" true.

(** The callback of the [finally] block (lines 121-123). *)
Definition hide_status : list Effect :=
  [UpdateStatusMessage StatusMessage.hidden].

(** The outcome of an attempt in the words of the specification. *)
Inductive Outcome : Type :=
| LayerAdded
| Failed (reason : string).

Section Upload.

(** [JSON.parse], the engine's. *)
Variable JSON_parse : string -> JsError + JsVal.

(** Lines 65-84: up to the first await. *)
Definition uploadShapefile_begin (snap : AppState) : M unit :=
  emit (SetStatusMessage loading_message) ;;;
  emit (Fetch upload_url "POST"
          (map (fun file => ("files", file)) (selectedFiles snap))).

(** Lines 81-111: the rest of the [try] block, from the settling of
    [fetch] on. *)
Definition upload_body (snap : AppState) (r : FetchResult) (now : Z)
  : M unit :=
  match r with
  | Rejected e => throw e
  | Responded status json =>
      data <- lift json ;;
      if response_ok status then
        err <- lift (get_prop data "error") ;;
        (if truthy err then throw (new_Error err) else ret tt) ;;;
        emit (SetStatusMessage success_message) ;;;
        geojsonData <- match data with
                       | JStr s => lift (JSON_parse s)
                       | _ => ret data
                       end ;;
        addGeoJsonLayer snap now geojsonData ;;;
        emit (SetSelectedFiles [])
      else
        err <- lift (get_prop data "error") ;;
        throw (new_Error
                 (if truthy err then err
                  else JStr "Failed to upload shapefile"))
  end.

(** Lines 112-118. *)
Definition upload_catch (error : JsError) : M unit :=
  emit (ConsoleError "Error:" error) ;;;
  emit (SetStatusMessage (error_message error)).

(** Lines 119-124. *)
Definition upload_finally : list Effect := [SetTimeout hide_status 5000].

(** What [uploadShapefile] does once [fetch] settles. *)
Definition uploadShapefile_settle (snap : AppState) (r : FetchResult)
  (now : Z) : M unit :=
  finally_ (try_catch (upload_body snap r now) upload_catch) upload_finally.

(** One whole attempt. *)
Definition uploadShapefile (snap : AppState) (r : FetchResult) (now : Z)
  : M unit :=
  uploadShapefile_begin snap ;;; uploadShapefile_settle snap r now.

(** The attempt fails when the [try] block throws, with the message of
    what is thrown as the reason. *)
Definition outcome (snap : AppState) (r : FetchResult) (now : Z) : Outcome :=
  match snd (upload_body snap r now) with
  | inl e => Failed (message e)
  | inr _ => LayerAdded
  end.

End Upload.

(** The notifications a list of effects sets, in order. *)
Fixpoint notifications (effs : list Effect) : list StatusMessage.t :=
  match effs with
  | [] => []
  | SetStatusMessage m :: r => m :: notifications r
  | _ :: r => notifications r
  end.

Definition is_terminal (m : StatusMessage.t) : bool :=
  (StatusMessage.type m =? "success") || (StatusMessage.type m =? "error").

Definition terminal_notifications (effs : list Effect) : list StatusMessage.t :=
  filter is_terminal (notifications effs).

(** Is the file selection cleared, is a layer update made? *)
Definition clears_selection (effs : list Effect) : bool :=
  existsb (fun e => match e with SetSelectedFiles [] => true | _ => false end)
    effs.

Definition updates_layers (effs : list Effect) : bool :=
  existsb (fun e => match e with SetLayers _ => true | _ => false end) effs.

(** ** Selection (lines 154-175) *)

Module Feature.
(** [e.target.feature] *)
Record t : Type := mk { id : JsVal; properties : JsVal }.
End Feature.

(** [featureId: e.target.feature.id || Math.random().toString(36).substring(7)];
    [rnd] is the random token. *)
Definition feature_id (feature : Feature.t) (rnd : string) : JsVal :=
  if truthy (Feature.id feature) then Feature.id feature else JStr rnd.

(** [onFeatureClick(e, layerId)] in the closure of the render [snap]. *)
Definition onFeatureClick (snap : AppState) (feature : Feature.t)
  (layerId : Z) (rnd : string) : M unit :=
  (match activeFeature snap with
   | Some af =>
       if negb (ActiveFeature.layerId af =? layerId)%Z
       then emit (SetActiveFeature None)
       else ret tt
   | None => ret tt
   end) ;;;
  emit (SetActiveFeature
          (Some (ActiveFeature.mk layerId (feature_id feature rnd)))) ;;;
  emit (SetActiveProperties (Feature.properties feature)).

Definition onMapClick : M unit :=
  emit (SetActiveFeature None) ;;;
  emit (SetActiveProperties JNull).

(** The states of the selection controller, read off [activeFeature]. *)
Inductive Selection : Type :=
| Idle
| Active (layerId : Z) (featureId : JsVal).

Definition selection (st : AppState) : Selection :=
  match activeFeature st with
  | None => Idle
  | Some af => Active (ActiveFeature.layerId af) (ActiveFeature.featureId af)
  end.

(** ** What a render shows (lines 278-306) *)

(** [layers.filter(layer => layer.visible)]: the layers drawn on the map. *)
Definition renderedLayers (st : AppState) : list Layer.t :=
  filter Layer.visible (layers st).

(** [activeFeature && activeFeature.layerId === layer.id] *)
Definition isActive (st : AppState) (layer : Layer.t) : bool :=
  match activeFeature st with
  | Some af => (ActiveFeature.layerId af =? Layer.id layer)%Z
  | None => false
  end.

(** [activeProperties && <FeatureInfo properties={activeProperties} />]:
    the attributes the inspector displays, if it is shown. *)
Definition inspector (st : AppState) : option JsVal :=
  if truthy (activeProperties st) then Some (activeProperties st) else None.

Module Style.
Record t : Type := mk {
  weight : Z;
  color : string;
  opacity : Z;
  fillColor : string;
  fillOpacityTenths : Z
}.
End Style.

(** [getLayerStyle]; the fill opacities 0.7 and 0.3 are kept in tenths. *)
Definition getLayerStyle (isActive : bool) (color : string) : Style.t :=
  if isActive then Style.mk 4 "#555" 1 color 7
  else Style.mk 2 color 1 color 3.

(** ** The session: handlers, uploads in flight and timers *)

(** The component between two events: the committed state, the closures of
    the [uploadShapefile] calls that wait for [fetch] (each holds the state
    of the render it was called from) and the pending timers. *)
Record World : Type := mkWorld {
  committed : AppState;
  inflight : list AppState;
  timers : list (Z * list Effect)
}.

Definition initialWorld : World := mkWorld initialState [] [].

Definition perform (w : World) (e : Effect) : World :=
  match e with
  | SetTimeout callback delay =>
      mkWorld (committed w) (inflight w) (timers w ++ [(delay, callback)])
  | _ => mkWorld (apply_effect (committed w) e) (inflight w) (timers w)
  end.

Definition perform_all (effs : list Effect) (w : World) : World :=
  fold_left perform effs w.

Fixpoint remove_nth {A} (k : nat) (l : list A) : list A :=
  match k, l with
  | _, [] => []
  | O, _ :: r => r
  | S k', x :: r => x :: remove_nth k' r
  end.

Inductive Event : Type :=
| FilesChosen (files : list File.t)
| ColorChosen (color : string)
| UploadClicked
| FetchSettled (k : nat) (r : FetchResult) (now : Z)
| TimerFired (k : nat)
| VisibilityToggled (layerId : Z) (visible : bool)
| FeatureClicked (feature : Feature.t) (layerId : Z) (rnd : string)
| MapClicked.

Section Session.

Variable JSON_parse : string -> JsError + JsVal.

(** One event.  A handler called by the user runs in the closure of the
    latest render; the continuation of an upload runs in the closure the
    upload was started from. *)
Definition step (w : World) (ev : Event) : World :=
  match ev with
  | FilesChosen files => perform_all (fst (handleFiles files)) w
  | ColorChosen c =>
      let st := committed w in
      mkWorld (mkState (selectedFiles st) c (layers st) (activeFeature st)
                 (activeProperties st) (statusMessage st) (basemap st))
        (inflight w) (timers w)
  | UploadClicked =>
      let snap := committed w in
      perform_all (fst (uploadShapefile_begin snap))
        (mkWorld (committed w) (inflight w ++ [snap]) (timers w))
  | FetchSettled k r now =>
      match nth_error (inflight w) k with
      | Some snap =>
          perform_all (fst (uploadShapefile_settle JSON_parse snap r now))
            (mkWorld (committed w) (remove_nth k (inflight w)) (timers w))
      | None => w
      end
  | TimerFired k =>
      match nth_error (timers w) k with
      | Some (_, callback) =>
          perform_all callback
            (mkWorld (committed w) (inflight w) (remove_nth k (timers w)))
      | None => w
      end
  | VisibilityToggled layerId visible =>
      perform_all (fst (toggleLayerVisibility layerId visible)) w
  | FeatureClicked feature layerId rnd =>
      perform_all (fst (onFeatureClick (committed w) feature layerId rnd)) w
  | MapClicked => perform_all (fst onMapClick) w
  end.

Definition run_events (evs : list Event) (w : World) : World :=
  fold_left step evs w.

End Session.

(** [JSON.parse] on the three literal texts; every other text is refused
    here.  It stands for the engine's parser in the closed examples, which
    apply it to texts that are not JSON only. *)
Definition parse_literal (s : string) : JsError + JsVal :=
  if s =? "null" then inr JNull
  else if s =? "true" then inr (JBool true)
  else if s =? "false" then inr (JBool false)
  else inl (mkError ("Unexpected token in JSON: " ++ s)%string).

(** * Properties *)

(** ** File selection *)

(** The extension test of the loop, as a predicate on files. *)
Definition has_ext (x : string) (file : File.t) : bool :=
  match extension (File.name file) with
  | inr ext => ext =? x
  | inl _ => false
  end.

Definition relevant_file (file : File.t) : bool :=
  match extension (File.name file) with
  | inr ext => is_relevant ext
  | inl _ => false
  end.

(** A name has an extension when it has a dot. *)
Definition has_dot (name : string) : bool :=
  existsb (Ascii.eqb ".") (list_ascii_of_string name).

Lemma split_not_nil (sep : ascii) (s : string) : split sep s <> [].
Proof.
  induction s as [|c r IH]; simpl; [discriminate|].
  destruct (Ascii.eqb c sep); [discriminate|].
  destruct (split sep r); discriminate.
Qed.

Lemma pop_some (l : list string) : l <> [] -> exists x, pop l = Some x.
Proof.
  induction l as [|a r IH]; [congruence|]; intros _.
  destruct r as [|b r']; [now exists a|].
  destruct IH as [x Hx]; [discriminate|].
  exists x. exact Hx.
Qed.

(** Reading the extension never throws. *)
Lemma extension_total (name : string) : exists ext, extension name = inr ext.
Proof.
  unfold extension.
  destruct (pop_some (split "." name) (split_not_nil _ _)) as [x ->].
  now eexists.
Qed.

Lemma is_relevant_cases (ext : string) :
  is_relevant ext = (ext =? "shp") || (ext =? "shx") || (ext =? "dbf").
Proof.
  unfold is_relevant; simpl.
  destruct (ext =? "shp"), (ext =? "shx"), (ext =? "dbf"); reflexivity.
Qed.

Lemma has_ext_relevant (x : string) (file : File.t) :
  In x ["shp"; "shx"; "dbf"] -> has_ext x file = true ->
  relevant_file file = true.
Proof.
  unfold has_ext, relevant_file.
  destruct (extension (File.name file)) as [e|ext]; [discriminate|].
  intros Hx Heq. apply String.eqb_eq in Heq. subst ext.
  rewrite is_relevant_cases.
  simpl in Hx.
  destruct Hx as [<-|[<-|[<-|[]]]]; reflexivity.
Qed.

(** One iteration, in terms of the predicates. *)
Lemma scan_file_spec (acc : Scan) (file : File.t) :
  scan_file acc file =
  inr (mkScan
         (newSelectedFiles acc ++ (if relevant_file file then [file] else []))
         (hasShp acc || has_ext "shp" file)
         (hasShx acc || has_ext "shx" file)
         (hasDbf acc || has_ext "dbf" file)).
Proof.
  unfold scan_file, relevant_file, has_ext.
  destruct (extension_total (File.name file)) as [ext ->].
  rewrite is_relevant_cases.
  destruct acc as [sel a b c]; simpl.
  destruct (ext =? "shp") eqn:E1, (ext =? "shx") eqn:E2, (ext =? "dbf") eqn:E3;
    simpl; rewrite ?orb_true_r, ?orb_false_r, ?app_nil_r; try reflexivity.
Qed.

(** The loop keeps the relevant files in order and raises each flag when a
    file of its extension is met. *)
Lemma scan_files_spec (files : list File.t) (acc : Scan) :
  scan_files acc files =
  inr (mkScan
         (newSelectedFiles acc ++ filter relevant_file files)
         (hasShp acc || existsb (has_ext "shp") files)
         (hasShx acc || existsb (has_ext "shx") files)
         (hasDbf acc || existsb (has_ext "dbf") files)).
Proof.
  revert acc.
  induction files as [|file rest IH]; intros acc; simpl.
  - rewrite app_nil_r, !orb_false_r. now destruct acc.
  - rewrite scan_file_spec, IH; simpl.
    rewrite <- app_assoc, <- !orb_assoc.
    destruct (relevant_file file); reflexivity.
Qed.

Lemma existsb_filter_relevant (x : string) (files : list File.t) :
  In x ["shp"; "shx"; "dbf"] ->
  existsb (has_ext x) (filter relevant_file files) = existsb (has_ext x) files.
Proof.
  intros Hx.
  induction files as [|file rest IH]; simpl; [reflexivity|].
  destruct (relevant_file file) eqn:Hr; simpl.
  - now rewrite IH.
  - rewrite IH.
    destruct (has_ext x file) eqn:He; [|reflexivity].
    rewrite (has_ext_relevant x file Hx He) in Hr. discriminate.
Qed.

(** [handleFiles] never throws; it selects the relevant files, in order. *)
Lemma handleFiles_selects (files : list File.t) :
  handleFiles files =
  ([SetSelectedFiles (filter relevant_file files)],
   inr (mkCompleteness
          (existsb (has_ext "shp") files && existsb (has_ext "shx") files
           && existsb (has_ext "dbf") files)
          (getMissingFiles (existsb (has_ext "shp") files)
             (existsb (has_ext "shx") files)
             (existsb (has_ext "dbf") files)))).
Proof.
  unfold handleFiles, lift, bind.
  rewrite scan_files_spec. reflexivity.
Qed.

(** A file without a dot in its name is left out unless its whole name is
    one of the three extensions, in any case of letters. *)
Lemma split_no_dot (name : string) :
  has_dot name = false -> split "." name = [name].
Proof.
  unfold has_dot.
  induction name as [|c r IH]; [reflexivity|].
  cbn [list_ascii_of_string existsb split].
  intros H. apply orb_false_elim in H. destruct H as [E H].
  rewrite Ascii.eqb_sym, E, (IH H). reflexivity.
Qed.

Lemma dotless_file_relevant (file : File.t) :
  has_dot (File.name file) = false ->
  relevant_file file = is_relevant (toLowerCase (File.name file)).
Proof.
  intros H. unfold relevant_file, extension.
  rewrite (split_no_dot _ H). reflexivity.
Qed.

(** C6 (the code departs from the claim): a file named "shp" has no
    extension, yet [handleFiles] keeps it in the selection, where the claim
    has every file without an extension left out. *)
Theorem handleFiles_keeps_dotless_name :
  let file := File.mk "shp" 0 in
  has_dot (File.name file) = false /\
  handleFiles [file] =
  ([SetSelectedFiles [file]],
   inr (mkCompleteness false [".shx"; ".dbf"])).
Proof. split; reflexivity. Qed.

(** The selection [handleFiles] makes and the answer it returns agree,
    for the extension as the loop reads it: [isComplete] holds exactly when
    the selection has a file of each of the three extensions, and
    [missingFiles] lists, dotted, exactly the extensions that no selected
    file has. *)
Theorem handleFiles_completeness (files : list File.t) :
  exists sel c,
    handleFiles files = ([SetSelectedFiles sel], inr c) /\
    isComplete c =
      forallb (fun x => existsb (has_ext x) sel) ["shp"; "shx"; "dbf"] /\
    missingFiles c =
      map (String.append ".")
        (filter (fun x => negb (existsb (has_ext x) sel))
           ["shp"; "shx"; "dbf"]).
Proof.
  eexists; eexists.
  split; [apply handleFiles_selects|].
  simpl isComplete; simpl missingFiles.
  cbn [forallb filter].
  rewrite !existsb_filter_relevant by (simpl; auto).
  unfold getMissingFiles.
  destruct (existsb (has_ext "shp") files),
           (existsb (has_ext "shx") files),
           (existsb (has_ext "dbf") files); split; reflexivity.
Qed.

(** ** Layer visibility *)

Lemma toggle_layer_id (x : Z) (v : bool) (l : Layer.t) :
  Layer.id (toggle_layer x v l) = Layer.id l.
Proof. unfold toggle_layer. now destruct (Layer.id l =? x)%Z. Qed.

Lemma toggle_layer_other (x : Z) (v : bool) (l : Layer.t) :
  Layer.id l <> x -> toggle_layer x v l = l.
Proof.
  intros H. unfold toggle_layer.
  destruct (Z.eqb_spec (Layer.id l) x); [contradiction|reflexivity].
Qed.

Lemma toggle_layer_target (x : Z) (v : bool) (l : Layer.t) :
  Layer.id l = x -> toggle_layer x v l = Layer.with_visible l v.
Proof. intros H. unfold toggle_layer. now rewrite H, Z.eqb_refl. Qed.

Lemma toggle_absent (x : Z) (v : bool) (ls : list Layer.t) :
  (forall l, In l ls -> Layer.id l <> x) -> map (toggle_layer x v) ls = ls.
Proof.
  induction ls as [|l r IH]; intros H; simpl; [reflexivity|].
  rewrite toggle_layer_other by (apply H; now left).
  rewrite IH; [reflexivity|]. intros l' Hl'. apply H. now right.
Qed.

Lemma run_toggle (st : AppState) (x : Z) (v : bool) :
  run (fst (toggleLayerVisibility x v)) st =
  mkState (selectedFiles st) (selectedColor st)
    (map (toggle_layer x v) (layers st)) (activeFeature st)
    (activeProperties st) (statusMessage st) (basemap st).
Proof. reflexivity. Qed.

(** A visibility toggle aimed at the id [x] does not throw, keeps the
    length and the order of the collection, leaves every layer whose id is
    not [x] as it was, changes nothing but [visible] on a layer whose id is
    [x], and leaves the whole state as it was when no layer has the id [x]. *)
Theorem toggleLayerVisibility_frame (st : AppState) (x : Z) (v : bool) :
  let st' := run (fst (toggleLayerVisibility x v)) st in
  snd (toggleLayerVisibility x v) = inr tt /\
  length (layers st') = length (layers st) /\
  map Layer.id (layers st') = map Layer.id (layers st) /\
  (forall i l, nth_error (layers st) i = Some l -> Layer.id l <> x ->
               nth_error (layers st') i = Some l) /\
  (forall i l, nth_error (layers st) i = Some l -> Layer.id l = x ->
               nth_error (layers st') i = Some (Layer.with_visible l v)) /\
  ((forall l, In l (layers st) -> Layer.id l <> x) -> st' = st).
Proof.
  intros st'. subst st'. rewrite run_toggle. cbn [layers].
  split; [reflexivity|].
  split; [apply length_map|].
  split.
  { rewrite map_map. apply map_ext. intros l. apply toggle_layer_id. }
  split.
  { intros i l Hi Hl. rewrite nth_error_map, Hi. simpl.
    now rewrite toggle_layer_other. }
  split.
  { intros i l Hi Hl. rewrite nth_error_map, Hi. simpl.
    now rewrite toggle_layer_target. }
  intros H. rewrite (toggle_absent x v _ H). now destruct st.
Qed.

Lemma toggleLayerVisibility_frame_witness :
  let l1 := Layer.mk 1 "Layer 1" "#3388ff" JNull true in
  let l2 := Layer.mk 2 "Layer 2" "#ff0000" (JObj []) true in
  let st := mkState [] "#3388ff" [l1; l2] None JNull
              (StatusMessage.mk "" "" false) "osm" in
  nth_error (layers (run (fst (toggleLayerVisibility 1 false)) st)) 1 = Some l2
  /\ nth_error (layers (run (fst (toggleLayerVisibility 1 false)) st)) 0 =
     Some (Layer.with_visible l1 false)
  /\ run (fst (toggleLayerVisibility 7 false)) st = st.
Proof.
  intros l1 l2 st.
  split; [|split].
  - apply (proj1 (proj2 (proj2 (proj2 (toggleLayerVisibility_frame st 1 false))))
             1%nat l2); [reflexivity | simpl; lia].
  - apply (proj1 (proj2 (proj2 (proj2 (proj2
             (toggleLayerVisibility_frame st 1 false))))) 0%nat l1);
      reflexivity.
  - apply (proj2 (proj2 (proj2 (proj2 (proj2
             (toggleLayerVisibility_frame st 7 false)))))).
    intros l [<-|[<-|[]]]; simpl; lia.
Defined.

Lemma hidden_layer_not_rendered (x : Z) (ls : list Layer.t) :
  existsb (fun l => (Layer.id l =? x)%Z)
    (filter Layer.visible (map (toggle_layer x false) ls)) = false.
Proof.
  induction ls as [|l r IH]; [reflexivity|].
  cbn [map filter]. unfold toggle_layer at 1.
  destruct (Layer.id l =? x)%Z eqn:E; [exact IH|].
  destruct (Layer.visible l); [|exact IH].
  cbn [existsb]. now rewrite toggle_layer_id, E.
Qed.

(** C10: a visibility toggle leaves the active feature, the selection
    state, the active properties and what the inspector displays as they
    were, whichever layer it aims at; and once it hides the layers of id
    [x], none of them is drawn, the one that owns the selection included. *)
Theorem toggleLayerVisibility_keeps_selection
  (st : AppState) (x : Z) (v : bool) :
  let st' := run (fst (toggleLayerVisibility x v)) st in
  activeFeature st' = activeFeature st /\
  selection st' = selection st /\
  activeProperties st' = activeProperties st /\
  inspector st' = inspector st /\
  existsb (fun l => (Layer.id l =? x)%Z)
    (renderedLayers (run (fst (toggleLayerVisibility x false)) st)) = false.
Proof.
  intros st'. subst st'. rewrite !run_toggle.
  repeat split.
  apply hidden_layer_not_rendered.
Qed.

(** ** Upload *)

(** The three ways the [try] block of an attempt ends. *)
Inductive BodyShape (snap : AppState) (now : Z) : M unit -> Prop :=
| ThrowsEarly (e : JsError) :
    BodyShape snap now ([], inl e)
| ThrowsAfterSuccess (e : JsError) :
    BodyShape snap now ([SetStatusMessage success_message], inl e)
| Completes (geojsonData : JsVal) :
    BodyShape snap now
      (SetStatusMessage success_message
         :: fst (addGeoJsonLayer snap now geojsonData)
         ++ [SetSelectedFiles []],
       inr tt).

Section UploadProperties.

Variable JSON_parse : string -> JsError + JsVal.

Lemma upload_body_shape (snap : AppState) (r : FetchResult) (now : Z) :
  BodyShape snap now (upload_body JSON_parse snap r now).
Proof.
  destruct r as [e|status [e|data]]; cbn [upload_body lift bind throw];
    try apply ThrowsEarly.
  destruct (response_ok status).
  - destruct (get_prop data "error") as [e|err] eqn:Hp;
      [apply ThrowsEarly|].
    destruct (truthy err); cbn; [apply ThrowsEarly|].
    destruct data as [| |b|n|s|items|fields];
      try (apply (Completes snap now)); try discriminate.
    destruct (JSON_parse s) as [e|g]; cbn;
      [apply ThrowsAfterSuccess|apply (Completes snap now)].
  - destruct (get_prop data "error") as [e|err]; cbn;
      apply ThrowsEarly.
Qed.

(** No error of an attempt escapes [uploadShapefile]. *)
Lemma uploadShapefile_returns (snap : AppState) (r : FetchResult) (now : Z) :
  snd (uploadShapefile JSON_parse snap r now) = inr tt.
Proof.
  unfold uploadShapefile, uploadShapefile_settle.
  destruct (upload_body_shape snap r now); reflexivity.
Qed.

(** Every attempt sets a terminal notification, at most two of them, and
    the last one tells the outcome. *)
Lemma uploadShapefile_terminal (snap : AppState) (r : FetchResult) (now : Z) :
  let ts := terminal_notifications
              (fst (uploadShapefile JSON_parse snap r now)) in
  match outcome JSON_parse snap r now with
  | LayerAdded => ts = [success_message]
  | Failed reason =>
      ts = [error_message (mkError reason)] \/
      ts = [success_message; error_message (mkError reason)]
  end.
Proof.
  unfold uploadShapefile, uploadShapefile_settle, outcome.
  destruct (upload_body_shape snap r now) as [[m]|[m]|g]; cbn.
  - now left.
  - now right.
  - reflexivity.
Qed.

(** C3: an attempt that fails, however it fails, makes no update of the
    layers and none of the file selection, so both are as they were; an
    attempt that succeeds appends one layer and empties the selection.
    The selection is cleared by the successful attempts and by no other. *)
Theorem upload_failure_keeps_selection
  (snap : AppState) (r : FetchResult) (now : Z) (st : AppState) :
  let effs := fst (uploadShapefile JSON_parse snap r now) in
  match outcome JSON_parse snap r now with
  | Failed _ =>
      updates_layers effs = false /\
      clears_selection effs = false /\
      layers (run effs st) = layers st /\
      selectedFiles (run effs st) = selectedFiles st
  | LayerAdded =>
      clears_selection effs = true /\
      selectedFiles (run effs st) = [] /\
      length (layers (run effs st)) = S (length (layers st))
  end.
Proof.
  unfold uploadShapefile, uploadShapefile_settle, outcome.
  destruct (upload_body_shape snap r now) as [e|e|g]; cbn.
  - repeat split.
  - repeat split.
  - repeat split. rewrite length_app. simpl. lia.
Qed.

(** C4, as the code has it: when the parsed body answers the read of
    [error] with a string that is not empty, a response of success class
    fails with that string for its reason; when it answers with a falsy
    value ([undefined] for an absent field), a response outside the
    success class fails with the fixed reason. *)
Theorem upload_failure_reason
  (snap : AppState) (status : Z) (data err : JsVal) (now : Z)
  (Hread : get_prop data "error" = inr err) :
  (response_ok status = true ->
   forall reason, err = JStr reason -> reason <> "" ->
   outcome JSON_parse snap (Responded status (inr data)) now =
   Failed reason) /\
  (response_ok status = false -> truthy err = false ->
   outcome JSON_parse snap (Responded status (inr data)) now =
   Failed "Failed to upload shapefile").
Proof.
  unfold outcome; cbn [upload_body lift bind].
  split.
  - intros Hok reason -> Hne. rewrite Hok, Hread.
    cbn [truthy]. destruct (String.eqb_spec reason "") as [E|_];
      [contradiction|reflexivity].
  - intros Hok Hty. rewrite Hok, Hread, Hty. reflexivity.
Qed.

(** A rejected [fetch] and a body that is not JSON fail the attempt with
    the message of the rejection, whatever the status. *)
Lemma upload_rejection_reason
  (snap : AppState) (status : Z) (e : JsError) (now : Z) :
  outcome JSON_parse snap (Rejected e) now = Failed (message e) /\
  outcome JSON_parse snap (Responded status (inl e)) now = Failed (message e).
Proof. split; reflexivity. Qed.

(** C5 (the code departs from the claim): when a response of success
    class carries a string that [JSON.parse] refuses, the attempt has
    already set the success notification when the parse throws, and the
    handler of the throw sets the error notification after it: two
    terminal notifications for one attempt. *)
Theorem upload_unparsable_string_notifies_twice
  (snap : AppState) (status : Z) (s : string) (e : JsError) (now : Z)
  (Hok : response_ok status = true)
  (Hparse : JSON_parse s = inl e) :
  terminal_notifications
    (fst (uploadShapefile JSON_parse snap
            (Responded status (inr (JStr s))) now)) =
  [success_message; error_message e].
Proof.
  unfold uploadShapefile, uploadShapefile_settle.
  cbn [upload_body lift bind get_prop].
  rewrite Hok. cbn. rewrite Hparse. reflexivity.
Qed.

End UploadProperties.

Lemma upload_failure_reason_witness :
  outcome parse_literal initialState
    (Responded 200 (inr (JObj [("error", JStr "unsupported projection")]))) 0 =
  Failed "unsupported projection"
  /\
  outcome parse_literal initialState (Responded 500 (inr (JObj []))) 0 =
  Failed "Failed to upload shapefile".
Proof.
  split.
  - apply (proj1 (upload_failure_reason parse_literal initialState 200
                    (JObj [("error", JStr "unsupported projection")])
                    (JStr "unsupported projection") 0 eq_refl));
      [reflexivity | reflexivity | discriminate].
  - apply (proj2 (upload_failure_reason parse_literal initialState 500
                    (JObj []) JUndefined 0 eq_refl));
      reflexivity.
Defined.

(** C4 (where the claim fails): a response of success class whose body is
    [{"error": ""}] carries an error field, yet the attempt succeeds: the
    field is read for its truth value and the empty string is falsy.  And a
    response outside the success class whose body is [null], or is not
    JSON at all, carries no error field, yet fails with the message of the
    throw and not with the fixed reason. *)
Lemma upload_empty_error_field_succeeds :
  let data := JObj [("error", JStr "")] in
  let html := mkError "Unexpected token '<'" in
  response_ok 200 = true /\
  get_prop data "error" = inr (JStr "") /\
  outcome parse_literal initialState (Responded 200 (inr data)) 0 = LayerAdded /\
  outcome parse_literal initialState (Responded 200 (inr data)) 0 <> Failed "" /\
  response_ok 502 = false /\
  outcome parse_literal initialState (Responded 502 (inr JNull)) 0 <>
    Failed "Failed to upload shapefile" /\
  outcome parse_literal initialState (Responded 502 (inl html)) 0 =
    Failed "Unexpected token '<'".
Proof. repeat split; discriminate. Qed.

Lemma upload_unparsable_string_notifies_twice_witness :
  terminal_notifications
    (fst (uploadShapefile parse_literal initialState
            (Responded 200 (inr (JStr "not json"))) 0)) =
  [success_message;
   error_message (mkError "Unexpected token in JSON: not json")].
Proof.
  apply (upload_unparsable_string_notifies_twice parse_literal initialState
           200 "not json" (mkError "Unexpected token in JSON: not json") 0);
    reflexivity.
Defined.

(** ** Appending layers *)

(** [calls] appends made one after the other, each from the closure of the
    render that follows the previous one; a call is the reading of the
    clock and the data. *)
Fixpoint append_each (st : AppState) (calls : list (Z * JsVal)) : AppState :=
  match calls with
  | [] => st
  | (now, geojsonData) :: rest =>
      append_each (run (fst (addGeoJsonLayer st now geojsonData)) st) rest
  end.

(** The layers such appends make, the first one named after [k + 1]. *)
Fixpoint layers_from (k : nat) (color : string) (calls : list (Z * JsVal))
  : list Layer.t :=
  match calls with
  | [] => []
  | (now, geojsonData) :: rest =>
      Layer.mk now ("Layer " ++ nat_to_string (k + 1))%string color
        geojsonData true
        :: layers_from (S k) color rest
  end.

Lemma append_each_layers (calls : list (Z * JsVal)) (st : AppState) :
  layers (append_each st calls) =
  layers st ++ layers_from (length (layers st)) (selectedColor st) calls.
Proof.
  revert st.
  induction calls as [|[now g] rest IH]; intros st; simpl.
  - now rewrite app_nil_r.
  - rewrite IH. cbn [run fold_left addGeoJsonLayer emit fst apply_effect
                     layers selectedColor].
    rewrite length_app, <- app_assoc. simpl.
    now rewrite Nat.add_1_r.
Qed.

Lemma layers_from_length (calls : list (Z * JsVal)) (k : nat) (c : string) :
  length (layers_from k c calls) = length calls.
Proof.
  revert k. induction calls as [|[now g] rest IH]; intros k; simpl;
    [reflexivity|now rewrite IH].
Qed.

Lemma layers_from_ids (calls : list (Z * JsVal)) (k : nat) (c : string) :
  map Layer.id (layers_from k c calls) = map fst calls.
Proof.
  revert k. induction calls as [|[now g] rest IH]; intros k; simpl;
    [reflexivity|now rewrite IH].
Qed.

Lemma layers_from_names (calls : list (Z * JsVal)) (k : nat) (c : string) :
  map Layer.name (layers_from k c calls) =
  map (fun i => ("Layer " ++ nat_to_string (i + 1))%string)
    (seq k (length calls)).
Proof.
  revert k. induction calls as [|[now g] rest IH]; intros k; simpl;
    [reflexivity|now rewrite IH].
Qed.

(** Appends made one render after the other give as many layers, named
    "Layer 1" to "Layer N" in order; the ids are the readings of the clock,
    distinct when, and only when, the readings are. *)
Lemma append_each_from_empty (st : AppState) (calls : list (Z * JsVal)) :
  layers st = [] ->
  let ls := layers (append_each st calls) in
  length ls = length calls /\
  map Layer.name ls =
    map (fun i => ("Layer " ++ nat_to_string (i + 1))%string)
      (seq 0 (length calls)) /\
  map Layer.id ls = map fst calls.
Proof.
  intros H ls. subst ls. rewrite append_each_layers, H. simpl.
  rewrite layers_from_length, layers_from_names, layers_from_ids.
  repeat split.
Qed.

(** Two appends from the closure of one render carry one name, and one id
    when the clock reads the same. *)
Lemma addGeoJsonLayer_same_closure
  (snap st : AppState) (now1 now2 : Z) (g1 g2 : JsVal) :
  exists l1 l2,
    layers (run (fst (addGeoJsonLayer snap now1 g1)
                 ++ fst (addGeoJsonLayer snap now2 g2)) st) =
    layers st ++ [l1; l2] /\
    Layer.name l1 = Layer.name l2 /\
    (now1 = now2 -> Layer.id l1 = Layer.id l2).
Proof.
  do 2 eexists. split; [|split].
  - cbn. rewrite <- app_assoc. reflexivity.
  - reflexivity.
  - intros H. exact H.
Qed.

(** C1 (the code departs from the claim): two uploads started before
    either settles and settling in the same millisecond append two layers
    that are both named "Layer 1" and carry the same id. *)
Theorem concurrent_uploads_share_name_and_id :
  let geo := JObj [("type", JStr "FeatureCollection")] in
  let w := run_events parse_literal
             [UploadClicked; UploadClicked;
              FetchSettled 0 (Responded 200 (inr geo)) 1700000000000;
              FetchSettled 0 (Responded 200 (inr geo)) 1700000000000]
             initialWorld in
  length (layers (committed w)) = 2%nat /\
  map Layer.name (layers (committed w)) = ["Layer 1"; "Layer 1"] /\
  map Layer.id (layers (committed w)) = [1700000000000%Z; 1700000000000%Z].
Proof. repeat split. Qed.

(** ** The auto-hide timer *)

(** Every timer a handler sets is the 5-second timer of [uploadShapefile]. *)
Definition sets_hide_timers_only (effs : list Effect) : Prop :=
  Forall (fun e => match e with
                   | SetTimeout callback delay =>
                       (delay, callback) = (5000%Z, hide_status)
                   | _ => True
                   end) effs.

Definition timers_hide (w : World) : Prop :=
  Forall (fun t => t = (5000%Z, hide_status)) (timers w).

Lemma perform_all_timers_hide (effs : list Effect) (w : World) :
  sets_hide_timers_only effs -> timers_hide w ->
  timers_hide (perform_all effs w).
Proof.
  unfold perform_all. revert w.
  induction effs as [|e r IH]; intros w He Hw; simpl; [exact Hw|].
  inversion He as [|? ? He1 He2]; subst.
  apply IH; [exact He2|].
  destruct e; try exact Hw.
  unfold timers_hide; simpl. apply Forall_app. split; [exact Hw|].
  constructor; [exact He1|constructor].
Qed.

Lemma remove_nth_Forall {A} (P : A -> Prop) (l : list A) (k : nat) :
  Forall P l -> Forall P (remove_nth k l).
Proof.
  intros H. revert k.
  induction H as [|x r Hx Hr IH]; intros [|k]; simpl; auto.
Qed.

Lemma settle_sets_hide_timers_only
  (parse : string -> JsError + JsVal) (snap : AppState) (r : FetchResult)
  (now : Z) :
  sets_hide_timers_only (fst (uploadShapefile_settle parse snap r now)).
Proof.
  unfold uploadShapefile_settle.
  destruct (upload_body_shape parse snap r now); cbn;
    repeat constructor.
Qed.

Lemma onFeatureClick_sets_no_timer
  (snap : AppState) (feature : Feature.t) (layerId : Z) (rnd : string) :
  sets_hide_timers_only (fst (onFeatureClick snap feature layerId rnd)).
Proof.
  unfold onFeatureClick.
  destruct (activeFeature snap) as [af|];
    [destruct (negb (ActiveFeature.layerId af =? layerId)%Z)|];
    cbn; repeat constructor.
Qed.

(** In a session, every pending timer is a 5-second timer whose callback
    hides whatever notification is current when it fires. *)
Lemma step_timers_hide
  (parse : string -> JsError + JsVal) (w : World) (ev : Event) :
  timers_hide w -> timers_hide (step parse w ev).
Proof.
  intros Hw.
  destruct ev as [files|c| |k r now|k|x v|feature x rnd| ]; cbn [step].
  - rewrite handleFiles_selects.
    apply perform_all_timers_hide; [repeat constructor|exact Hw].
  - exact Hw.
  - apply perform_all_timers_hide; [repeat constructor|exact Hw].
  - destruct (nth_error (inflight w) k); [|exact Hw].
    apply perform_all_timers_hide;
      [apply settle_sets_hide_timers_only|exact Hw].
  - destruct (nth_error (timers w) k) as [[d cb]|] eqn:Hk; [|exact Hw].
    apply nth_error_In in Hk.
    unfold timers_hide in Hw. rewrite Forall_forall in Hw.
    specialize (Hw _ Hk) as Heq. inversion Heq; subst.
    apply perform_all_timers_hide; [repeat constructor|].
    unfold timers_hide; simpl. apply remove_nth_Forall.
    now apply Forall_forall.
  - apply perform_all_timers_hide; [repeat constructor|exact Hw].
  - apply perform_all_timers_hide;
      [apply onFeatureClick_sets_no_timer|exact Hw].
  - apply perform_all_timers_hide; [repeat constructor|exact Hw].
Qed.

Lemma run_events_timers_hide
  (parse : string -> JsError + JsVal) (evs : list Event) (w : World) :
  timers_hide w -> timers_hide (run_events parse evs w).
Proof.
  unfold run_events. revert w.
  induction evs as [|ev r IH]; intros w Hw; simpl; [exact Hw|].
  apply IH, step_timers_hide, Hw.
Qed.

(** C2, as the code has it: no timer is ever cancelled and the callback
    checks nothing, so in any session a pending timer that fires hides the
    notification that is current then, whichever attempt set it, and leaves
    its text and its type as they are. *)
Theorem stale_timer_hides_current_notification
  (parse : string -> JsError + JsVal) (evs : list Event) (k : nat) :
  let w := run_events parse evs initialWorld in
  (k < length (timers w))%nat ->
  statusMessage (committed (step parse w (TimerFired k))) =
  StatusMessage.hidden (statusMessage (committed w)).
Proof.
  intros w Hk. cbn [step].
  destruct (nth_error (timers w) k) as [[d cb]|] eqn:Hn.
  - assert (Hw : timers_hide w)
      by (apply run_events_timers_hide; constructor).
    unfold timers_hide in Hw. rewrite Forall_forall in Hw.
    specialize (Hw _ (nth_error_In _ _ Hn)). inversion Hw; subst.
    reflexivity.
  - apply nth_error_None in Hn. lia.
Qed.

Definition retry_session : list Event :=
  [UploadClicked;
   FetchSettled 0 (Rejected (mkError "Failed to fetch")) 1700000000000;
   UploadClicked;
   FetchSettled 0
     (Responded 200 (inr (JObj [("type", JStr "FeatureCollection")])))
     1700000004000].

Lemma stale_timer_hides_current_notification_witness :
  statusMessage
    (committed
       (step parse_literal (run_events parse_literal retry_session initialWorld)
          (TimerFired 0))) =
  StatusMessage.mk "Shapefile loaded successfully!" "success" false.
Proof.
  apply (stale_timer_hides_current_notification parse_literal retry_session 0).
  simpl. lia.
Defined.

(** C2 (where the claim fails): an upload fails and sets its timer; the
    retry succeeds before that timer fires and sets the success
    notification; the first timer then fires, with the timer of the retry
    still pending, and the success notification is no longer visible. *)
Lemma stale_timer_hides_newer_notification :
  let w := run_events parse_literal retry_session initialWorld in
  statusMessage (committed w) = success_message /\
  StatusMessage.visible (statusMessage (committed w)) = true /\
  length (timers w) = 2%nat /\
  let w' := step parse_literal w (TimerFired 0) in
  length (timers w') = 1%nat /\
  StatusMessage.type (statusMessage (committed w')) = "success" /\
  StatusMessage.visible (statusMessage (committed w')) = false.
Proof. repeat split. Qed.

(** ** Selection *)

Lemma perform_all_committed (effs : list Effect) (w : World) :
  committed (perform_all effs w) = run effs (committed w).
Proof.
  unfold perform_all, run. revert w.
  induction effs as [|e r IH]; intros w; [reflexivity|].
  cbn [fold_left]. rewrite IH. now destruct e.
Qed.

Lemma run_onFeatureClick
  (snap st : AppState) (feature : Feature.t) (layerId : Z) (rnd : string) :
  run (fst (onFeatureClick snap feature layerId rnd)) st =
  mkState (selectedFiles st) (selectedColor st) (layers st)
    (Some (ActiveFeature.mk layerId (feature_id feature rnd)))
    (Feature.properties feature) (statusMessage st) (basemap st).
Proof.
  unfold onFeatureClick.
  destruct (activeFeature snap) as [af|];
    [destruct (negb (ActiveFeature.layerId af =? layerId)%Z)|];
    reflexivity.
Qed.

(** The states a session leaves, one per event. *)
Fixpoint session_states (parse : string -> JsError + JsVal)
  (evs : list Event) (w : World) : list AppState :=
  match evs with
  | [] => []
  | ev :: rest =>
      committed (step parse w ev) :: session_states parse rest (step parse w ev)
  end.

(** What the inspector shows of a feature. *)
Definition shown (feature : Feature.t) : option JsVal :=
  if truthy (Feature.properties feature)
  then Some (Feature.properties feature) else None.

(** C7: from every state, a click on a feature of layer L1, a click on a
    feature of another layer L2 and a click on the map leave three states
    and no other: Active(L1, F1), then Active(L2, F2), then Idle.  No Idle
    state lies between the two feature clicks; from the second click on
    the selection is not the first feature's, and the inspector shows the
    second feature and then nothing.  The id of a feature is the feature's
    own when that is truthy. *)
Theorem feature_clicks_then_map_click
  (parse : string -> JsError + JsVal) (w : World)
  (f1 f2 : Feature.t) (L1 L2 : Z) (r1 r2 : string)
  (Hlayers : L2 <> L1) :
  let states :=
    session_states parse
      [FeatureClicked f1 L1 r1; FeatureClicked f2 L2 r2; MapClicked] w in
  map selection states =
    [Active L1 (feature_id f1 r1); Active L2 (feature_id f2 r2); Idle] /\
  map inspector states = [shown f1; shown f2; None] /\
  Active L2 (feature_id f2 r2) <> Active L1 (feature_id f1 r1) /\
  (truthy (Feature.id f1) = true -> feature_id f1 r1 = Feature.id f1) /\
  (truthy (Feature.id f2) = true -> feature_id f2 r2 = Feature.id f2).
Proof.
  intros states. subst states.
  cbn [session_states step].
  rewrite !perform_all_committed, !run_onFeatureClick.
  split; [reflexivity|]. split; [reflexivity|].
  split; [intros E; injection E as E _; contradiction|].
  unfold feature_id. split; intros ->; reflexivity.
Qed.

Definition parcel : Feature.t :=
  Feature.mk (JNum 7) (JObj [("name", JStr "parcel")]).
Definition road : Feature.t :=
  Feature.mk (JStr "r1") (JObj [("name", JStr "road")]).

Lemma feature_clicks_then_map_click_witness :
  map selection
    (session_states parse_literal
       [FeatureClicked parcel 10 "k3x9"; FeatureClicked road 20 "p0q2";
        MapClicked] initialWorld) =
  [Active 10 (JNum 7); Active 20 (JStr "r1"); Idle].
Proof.
  apply (proj1 (feature_clicks_then_map_click parse_literal initialWorld
                  parcel road 10 20 "k3x9" "p0q2" ltac:(lia))).
Defined.

(** ** The worked examples of the specification *)

Example style_inactive :
  getLayerStyle false "#ff0000" = Style.mk 2 "#ff0000" 1 "#ff0000" 3.
Proof. reflexivity. Qed.

Example style_active :
  getLayerStyle true "#ff0000" = Style.mk 4 "#555" 1 "#ff0000" 7.
Proof. reflexivity. Qed.

Definition bundle : list File.t :=
  [File.mk "a.shp" 2048; File.mk "a.shx" 512; File.mk "a.dbf" 4096;
   File.mk "a.png" 100].

Example select_bundle :
  handleFiles bundle =
  ([SetSelectedFiles
      [File.mk "a.shp" 2048; File.mk "a.shx" 512; File.mk "a.dbf" 4096]],
   inr (mkCompleteness true [])).
Proof. reflexivity. Qed.

Example upload_bundle :
  let geo := JObj [("type", JStr "FeatureCollection")] in
  let w := run_events parse_literal
             [FilesChosen bundle; ColorChosen "#ff0000"; UploadClicked;
              FetchSettled 0 (Responded 200 (inr geo)) 1700000000000]
             initialWorld in
  layers (committed w) =
    [Layer.mk 1700000000000 "Layer 1" "#ff0000" geo true] /\
  selectedFiles (committed w) = [] /\
  statusMessage (committed w) = success_message.
Proof. repeat split. Qed.

Example upload_rejected_by_service :
  let body := JObj [("error", JStr "unsupported projection")] in
  let w0 := run_events parse_literal [FilesChosen bundle; UploadClicked]
              initialWorld in
  let w := step parse_literal w0 (FetchSettled 0 (Responded 200 (inr body)) 0) in
  outcome parse_literal (committed w0) (Responded 200 (inr body)) 0 =
    Failed "unsupported projection" /\
  layers (committed w) = [] /\
  selectedFiles (committed w) = selectedFiles (committed w0) /\
  length (selectedFiles (committed w)) = 3%nat.
Proof. repeat split. Qed.

(** * The rest of the component *)

(** ** File sizes (lines 56-61) *)

(** [x.toFixed(1)] for [x = num / den] with [0 <= num] and [0 < den]:
    [tenths] is the integer nearest to [10 * x], the larger one on a tie;
    its last digit goes after the point. *)
Definition tenths (num den : Z) : Z := ((20 * num + den) / (2 * den))%Z.

Definition toFixed1 (num den : Z) : string :=
  (Z_to_string (tenths num den / 10) ++ "."
   ++ Z_to_string (tenths num den mod 10))%string.

(** [formatFileSize(bytes)] for an integer number of bytes.  A file size is
    an integer below 2^53, so that the quotients by 1024 and by 1048576,
    two powers of two, are computed exactly, and [toFixed] rounds the exact
    quotient. *)
Definition formatFileSize (bytes : Z) : string :=
  if (bytes <? 1024)%Z then (Z_to_string bytes ++ " bytes")%string
  else if (bytes <? 1048576)%Z then (toFixed1 bytes 1024 ++ " KB")%string
  else (toFixed1 bytes 1048576 ++ " MB")%string.

(** ** The map (lines 177-207 and 257-300) *)

(** The base layers of a render (lines 258-275): the URL of each
    [TileLayer] element, in order. *)
Definition tileLayers (st : AppState) : list string :=
  (if basemap st =? "osm"
   then ["https://{s}.tile.openstreetmap.org/{z}/{x}/{y}.png"] else []) ++
  (if basemap st =? "satellite"
   then ["https://server.arcgisonline.com/ArcGIS/rest/services/World_Imagery/MapServer/tile/{z}/{y}/{x}"]
   else []) ++
  (if basemap st =? "topo"
   then ["https://{s}.tile.opentopomap.org/{z}/{x}/{y}.png"] else []).

(** The style callback a render gives the [GeoJSON] element of [layer]
    (lines 282-287); the feature it is called with is not looked at. *)
Definition layerStyle (st : AppState) (layer : Layer.t) (feature : Feature.t)
  : Style.t :=
  getLayerStyle (isActive st layer) (Layer.color layer).

Section MapUpdater.

(** Leaflet: the bounds type, [L.geoJSON(data).getBounds()], which may
    throw, [bounds.isValid()] and whether [map.fitBounds(bounds)] throws. *)
Variable Bounds : Type.
Variable geoJSON_getBounds : JsVal -> JsError + Bounds.
Variable isValid : Bounds -> bool.
Variable fitBounds_throws : Bounds -> option JsError.

(** What the fitting effect does to the map and the console. *)
Inductive MapCall : Type :=
| FitBounds (bounds : Bounds)
| LogFitError (e : JsError).

(** Lines 194-202: the [try] block and its handler. *)
Definition fit_data (data : JsVal) : list MapCall :=
  match geoJSON_getBounds data with
  | inl e => [LogFitError e]
  | inr bounds =>
      if isValid bounds then
        match fitBounds_throws bounds with
        | None => [FitBounds bounds]
        | Some e => [FitBounds bounds; LogFitError e]
        end
      else []
  end.

(** Lines 192-203: the body of the effect that fits the view. *)
Definition fit_to_last (ls : list Layer.t) : list MapCall :=
  if (0 <? length ls)%nat then
    match nth_error ls (length ls - 1) with
    | Some lastLayer => fit_data (Layer.data lastLayer)
    | None => [LogFitError (mkError (null_read_message JUndefined "data"))]
    end
  else [].

End MapUpdater.

Arguments FitBounds {Bounds} bounds.
Arguments LogFitError {Bounds} e.

(** ** Sessions *)

(** What a layer keeps for life: everything but [visible]. *)
Definition layer_identity (l : Layer.t) : Z * string * string * JsVal :=
  (Layer.id l, Layer.name l, Layer.color l, Layer.data l).

(** The timers a list of effects sets. *)
Fixpoint timeouts (effs : list Effect) : list (Z * list Effect) :=
  match effs with
  | [] => []
  | SetTimeout callback delay :: r => (delay, callback) :: timeouts r
  | _ :: r => timeouts r
  end.

(** Which events can change which state variables. *)
Definition touches_selection (ev : Event) : bool :=
  match ev with FeatureClicked _ _ _ | MapClicked => true | _ => false end.

Definition touches_layers (ev : Event) : bool :=
  match ev with VisibilityToggled _ _ | FetchSettled _ _ _ => true | _ => false end.

Definition touches_files (ev : Event) : bool :=
  match ev with FilesChosen _ | FetchSettled _ _ _ => true | _ => false end.

Definition touches_status (ev : Event) : bool :=
  match ev with
  | UploadClicked | FetchSettled _ _ _ | TimerFired _ => true
  | _ => false
  end.

(** Do the feature clicks of a session land on layers that are drawn when
    they are made?  (A click comes from the [GeoJSON] element of a layer.) *)
Fixpoint clicks_on_drawn_layers (parse : string -> JsError + JsVal)
  (evs : list Event) (w : World) : bool :=
  match evs with
  | [] => true
  | ev :: rest =>
      match ev with
      | FeatureClicked _ layerId _ =>
          existsb (fun l => (Layer.id l =? layerId)%Z)
            (renderedLayers (committed w))
      | _ => true
      end
      && clicks_on_drawn_layers parse rest (step parse w ev)
  end.

(** The active feature, if any, belongs to a layer of the collection. *)
Definition selection_owned (st : AppState) : bool :=
  match activeFeature st with
  | Some af =>
      existsb (fun l => (Layer.id l =? ActiveFeature.layerId af)%Z) (layers st)
  | None => true
  end.

(** ** File names *)

Lemma pop_app (l1 l2 : list string) : l2 <> [] -> pop (l1 ++ l2) = pop l2.
Proof.
  intros H. induction l1 as [|a r IH]; [reflexivity|].
  cbn [List.app pop]. rewrite IH.
  destruct (r ++ l2) eqn:E; [|reflexivity].
  apply app_eq_nil in E. destruct E; contradiction.
Qed.

Lemma split_app (sep : ascii) (p e : string) :
  split sep (p ++ String sep e)%string = split sep p ++ split sep e.
Proof.
  induction p as [|c r IH]; cbn [String.append split].
  - now rewrite Ascii.eqb_refl.
  - rewrite IH. destruct (Ascii.eqb c sep); [reflexivity|].
    destruct (split sep r) as [|h t] eqn:E; [|reflexivity].
    now apply split_not_nil in E.
Qed.

(** The extension is what follows the last dot, in lower case, however
    many dots come before. *)
Theorem extension_after_last_dot (p e : string) :
  has_dot e = false ->
  extension (p ++ "." ++ e)%string = inr (toLowerCase e).
Proof.
  intros H. unfold extension.
  change (p ++ "." ++ e)%string with (p ++ String "." e)%string.
  rewrite split_app, pop_app by apply split_not_nil.
  now rewrite (split_no_dot e H).
Qed.

Lemma extension_after_last_dot_witness :
  extension "parcels.2024.SHP" = inr "shp".
Proof.
  apply (extension_after_last_dot "parcels.2024" "SHP"). reflexivity.
Defined.

Lemma lower_ascii_dot (c : ascii) :
  Ascii.eqb (lower_ascii c) "." = Ascii.eqb c ".".
Proof. destruct c as [[] [] [] [] [] [] [] []]; reflexivity. Qed.

Lemma lower_ascii_idem (c : ascii) : lower_ascii (lower_ascii c) = lower_ascii c.
Proof. destruct c as [[] [] [] [] [] [] [] []]; reflexivity. Qed.

Lemma toLowerCase_idem (s : string) : toLowerCase (toLowerCase s) = toLowerCase s.
Proof.
  induction s as [|c r IH]; simpl; [reflexivity|].
  now rewrite lower_ascii_idem, IH.
Qed.

Lemma split_toLowerCase (s : string) :
  split "." (toLowerCase s) = map toLowerCase (split "." s).
Proof.
  induction s as [|c r IH]; [reflexivity|].
  cbn [toLowerCase split]. rewrite lower_ascii_dot, IH.
  destruct (Ascii.eqb c "."); [reflexivity|].
  destruct (split "." r); reflexivity.
Qed.

Lemma pop_map (f : string -> string) (l : list string) :
  pop (map f l) = option_map f (pop l).
Proof.
  induction l as [|a r IH]; [reflexivity|].
  destruct r as [|b r']; [reflexivity|]. exact IH.
Qed.

Lemma extension_toLowerCase (name : string) :
  extension (toLowerCase name) = extension name.
Proof.
  unfold extension. rewrite split_toLowerCase, pop_map.
  destruct (pop (split "." name)); simpl; [|reflexivity].
  now rewrite toLowerCase_idem.
Qed.

(** Two files whose names differ in the case of letters only have the same
    extension, so that they are kept or left out together. *)
Theorem extension_ignores_case (f1 f2 : File.t) :
  toLowerCase (File.name f1) = toLowerCase (File.name f2) ->
  extension (File.name f1) = extension (File.name f2) /\
  relevant_file f1 = relevant_file f2.
Proof.
  intros H.
  assert (E : extension (File.name f1) = extension (File.name f2))
    by (rewrite <- (extension_toLowerCase (File.name f1)), H;
        apply extension_toLowerCase).
  split; [exact E|]. unfold relevant_file. now rewrite E.
Qed.

Lemma extension_ignores_case_witness :
  relevant_file (File.mk "ROADS.Shp" 1) = relevant_file (File.mk "roads.shp" 9).
Proof.
  apply (extension_ignores_case (File.mk "ROADS.Shp" 1) (File.mk "roads.shp" 9)).
  reflexivity.
Defined.

(** A file without a dot in its name is kept exactly when its whole name,
    in lower case, is one of the three extensions; no file makes
    [handleFiles] throw. *)
Theorem handleFiles_dotless (file : File.t) :
  has_dot (File.name file) = false ->
  handleFiles [file] =
  ([SetSelectedFiles
      (if is_relevant (toLowerCase (File.name file)) then [file] else [])],
   inr (mkCompleteness false
          (getMissingFiles (toLowerCase (File.name file) =? "shp")
             (toLowerCase (File.name file) =? "shx")
             (toLowerCase (File.name file) =? "dbf")))).
Proof.
  intros H. rewrite handleFiles_selects.
  cbn [filter existsb]. rewrite (dotless_file_relevant file H).
  unfold has_ext, extension. rewrite (split_no_dot _ H). cbn [pop].
  rewrite !orb_false_r.
  destruct (toLowerCase (File.name file) =? "shp") eqn:E1,
           (toLowerCase (File.name file) =? "shx") eqn:E2,
           (toLowerCase (File.name file) =? "dbf") eqn:E3;
    try reflexivity;
    repeat match goal with
           | H : (_ =? _) = true |- _ => apply String.eqb_eq in H
           end; congruence.
Qed.

Lemma handleFiles_dotless_witness :
  fst (handleFiles [File.mk "README" 120]) = [SetSelectedFiles []].
Proof.
  exact (f_equal fst (handleFiles_dotless (File.mk "README" 120) eq_refl)).
Defined.

(** Choosing again the files that were kept changes nothing: the same
    selection and the same answer. *)
Theorem handleFiles_idempotent (files : list File.t) :
  handleFiles (filter relevant_file files) =
  ([SetSelectedFiles (filter relevant_file files)], snd (handleFiles files)).
Proof.
  rewrite !handleFiles_selects. cbn [snd].
  rewrite !existsb_filter_relevant by (simpl; auto).
  replace (filter relevant_file (filter relevant_file files))
    with (filter relevant_file files); [reflexivity|].
  induction files as [|f r IH]; [reflexivity|].
  cbn [filter]. destruct (relevant_file f) eqn:E; [|exact IH].
  cbn [filter]. rewrite E. now f_equal.
Qed.

Lemma relevant_count (files : list File.t) :
  length (filter relevant_file files) =
  (length (filter (has_ext "shp") files)
   + length (filter (has_ext "shx") files)
   + length (filter (has_ext "dbf") files))%nat.
Proof.
  induction files as [|f r IH]; [reflexivity|].
  cbn [filter].
  destruct (extension_total (File.name f)) as [ext He].
  assert (Hr : relevant_file f = is_relevant ext)
    by (unfold relevant_file; now rewrite He).
  assert (Hx : forall x, has_ext x f = (ext =? x))
    by (intros x; unfold has_ext; now rewrite He).
  rewrite Hr, !Hx, is_relevant_cases.
  destruct (ext =? "shp") eqn:E1, (ext =? "shx") eqn:E2, (ext =? "dbf") eqn:E3;
    cbn [orb length]; rewrite ?IH; try lia;
    repeat match goal with
           | H : (_ =? _) = true |- _ => apply String.eqb_eq in H
           end; congruence.
Qed.

Lemma existsb_filter_length {A} (p : A -> bool) (l : list A) :
  existsb p l = true -> (1 <= length (filter p l))%nat.
Proof.
  induction l as [|a r IH]; simpl; [discriminate|].
  destruct (p a); simpl; [lia|exact IH].
Qed.

(** The two answers of [handleFiles] agree, and a complete selection has
    three files at least: [isComplete] holds exactly when nothing is
    missing, and then the selection has a file for each extension. *)
Theorem handleFiles_complete_iff_nothing_missing (files : list File.t) :
  exists sel c,
    handleFiles files = ([SetSelectedFiles sel], inr c) /\
    (isComplete c = true <-> missingFiles c = []) /\
    (isComplete c = true -> (3 <= length sel)%nat) /\
    (length (missingFiles c) <= 3)%nat.
Proof.
  eexists; eexists. split; [apply handleFiles_selects|].
  cbn [isComplete missingFiles]. rewrite relevant_count.
  pose proof (existsb_filter_length (has_ext "shp") files) as H1.
  pose proof (existsb_filter_length (has_ext "shx") files) as H2.
  pose proof (existsb_filter_length (has_ext "dbf") files) as H3.
  unfold getMissingFiles.
  destruct (existsb (has_ext "shp") files),
           (existsb (has_ext "shx") files),
           (existsb (has_ext "dbf") files); cbn;
    repeat split; try discriminate; try lia; intros _;
    specialize (H1 eq_refl); specialize (H2 eq_refl);
    specialize (H3 eq_refl); lia.
Qed.

Lemma handleFiles_complete_iff_nothing_missing_witness :
  exists sel c,
    handleFiles bundle = ([SetSelectedFiles sel], inr c) /\
    isComplete c = true /\ (3 <= length sel)%nat.
Proof.
  destruct (handleFiles_complete_iff_nothing_missing bundle)
    as (sel & c & Hh & Hiff & Hlen & _).
  exists sel, c.
  assert (Hc : isComplete c = true).
  { rewrite select_bundle in Hh. injection Hh as _ Hh. now subst c. }
  repeat split; [exact Hh|exact Hc|exact (Hlen Hc)].
Defined.

(** The request of an upload made after a choice of files carries the kept
    files and no other, in the order of the choice, each under the field
    name "files"; it is made whether or not the selection is complete. *)
Theorem upload_sends_kept_files (files : list File.t) (st : AppState) :
  fst (uploadShapefile_begin (run (fst (handleFiles files)) st)) =
  [SetStatusMessage loading_message;
   Fetch upload_url "POST"
     (map (fun file => ("files", file)) (filter relevant_file files))].
Proof. rewrite handleFiles_selects. reflexivity. Qed.

(** ** Attempts *)

Section AttemptProperties.

Variable JSON_parse : string -> JsError + JsVal.

(** Once an attempt is over, the notification in place tells its outcome:
    the success notification after a success, the error notification with
    the reason after a failure, visible in both cases. *)
Theorem upload_leaves_outcome_notification
  (snap : AppState) (r : FetchResult) (now : Z) (st : AppState) :
  statusMessage (run (fst (uploadShapefile JSON_parse snap r now)) st) =
  match outcome JSON_parse snap r now with
  | LayerAdded => success_message
  | Failed reason => error_message (mkError reason)
  end.
Proof.
  unfold uploadShapefile, uploadShapefile_settle, outcome.
  destruct (upload_body_shape JSON_parse snap r now) as [[m]|[m]|g];
    reflexivity.
Qed.

(** An attempt changes neither the active feature, nor the properties on
    display, nor the colour, nor the base map. *)
Lemma upload_keeps_view
  (snap : AppState) (r : FetchResult) (now : Z) (st : AppState) :
  let st' := run (fst (uploadShapefile JSON_parse snap r now)) st in
  activeFeature st' = activeFeature st /\
  activeProperties st' = activeProperties st /\
  selectedColor st' = selectedColor st /\
  basemap st' = basemap st.
Proof.
  unfold uploadShapefile, uploadShapefile_settle.
  destruct (upload_body_shape JSON_parse snap r now); repeat split.
Qed.

(** The layer of a successful attempt, for a body that is not a string:
    the body itself is the data; the layer goes last, after the layers in
    place when the update is processed, which are left as they are; its id
    is the reading of the clock, it is visible, and its name and colour are
    those of the render the upload was started from, not of the state the
    layer is added to. *)
Theorem upload_appends_layer_of_closure
  (snap st : AppState) (status : Z) (data err : JsVal) (now : Z) :
  response_ok status = true ->
  get_prop data "error" = inr err ->
  truthy err = false ->
  is_string data = false ->
  layers (run (fst (uploadShapefile JSON_parse snap
                      (Responded status (inr data)) now)) st) =
  layers st ++
  [Layer.mk now
     ("Layer " ++ nat_to_string (length (layers snap) + 1))%string
     (selectedColor snap) data true].
Proof.
  intros Hok Hread Hty Hstr.
  unfold uploadShapefile, uploadShapefile_settle.
  cbn [upload_body lift bind]. rewrite Hok, Hread, Hty.
  destruct data; try discriminate; reflexivity.
Qed.

(** For a body that is a string, the data of the layer is what
    [JSON.parse] makes of the string. *)
Theorem upload_parses_string_body
  (snap st : AppState) (status : Z) (s : string) (g : JsVal) (now : Z) :
  response_ok status = true ->
  JSON_parse s = inr g ->
  outcome JSON_parse snap (Responded status (inr (JStr s))) now = LayerAdded /\
  layers (run (fst (uploadShapefile JSON_parse snap
                      (Responded status (inr (JStr s))) now)) st) =
  layers st ++
  [Layer.mk now
     ("Layer " ++ nat_to_string (length (layers snap) + 1))%string
     (selectedColor snap) g true].
Proof.
  intros Hok Hparse.
  unfold outcome, uploadShapefile, uploadShapefile_settle.
  cbn [upload_body lift bind get_prop]. rewrite Hok. cbn.
  rewrite Hparse. split; reflexivity.
Qed.

End AttemptProperties.

Lemma upload_appends_layer_of_closure_witness :
  let snap := mkState [] "#3388ff" [] None JNull loading_message "osm" in
  let st := mkState [] "#ff0000"
              [Layer.mk 5 "Layer 1" "#00ff00" JNull false] None JNull
              loading_message "osm" in
  layers (run (fst (uploadShapefile parse_literal snap
                      (Responded 201 (inr (JArr []))) 9)) st) =
  [Layer.mk 5 "Layer 1" "#00ff00" JNull false;
   Layer.mk 9 "Layer 1" "#3388ff" (JArr []) true].
Proof.
  intros snap st.
  apply (upload_appends_layer_of_closure parse_literal snap st 201 (JArr [])
           JUndefined 9); reflexivity.
Defined.

Lemma upload_parses_string_body_witness :
  layers (run (fst (uploadShapefile parse_literal initialState
                      (Responded 200 (inr (JStr "null"))) 3)) initialState) =
  [Layer.mk 3 "Layer 1" "#3388ff" JNull true].
Proof.
  apply (proj2 (upload_parses_string_body parse_literal initialState
                  initialState 200 "null" JNull 3 eq_refl eq_refl)).
Defined.

Lemma append_each_from_empty_witness :
  map Layer.name
    (layers (append_each initialState [(10%Z, JNull); (11%Z, JNull); (12%Z, JNull)]))
  = ["Layer 1"; "Layer 2"; "Layer 3"].
Proof.
  apply (proj1 (proj2 (append_each_from_empty initialState
                         [(10%Z, JNull); (11%Z, JNull); (12%Z, JNull)]
                         eq_refl))).
Defined.

(** ** Visibility toggles *)

Lemma with_visible_same (l : Layer.t) :
  Layer.with_visible l (Layer.visible l) = l.
Proof. now destruct l. Qed.

Lemma toggle_toggle (x y : Z) (u v : bool) (l : Layer.t) :
  x <> y ->
  toggle_layer x v (toggle_layer y u l) = toggle_layer y u (toggle_layer x v l).
Proof.
  intros H. unfold toggle_layer.
  destruct (Z.eqb_spec (Layer.id l) y) as [Ey|Ey],
           (Z.eqb_spec (Layer.id l) x) as [Ex|Ex]; cbn [Layer.with_visible Layer.id];
    rewrite ?(proj2 (Z.eqb_eq _ _) Ex), ?(proj2 (Z.eqb_eq _ _) Ey),
            ?(proj2 (Z.eqb_neq _ _) Ex), ?(proj2 (Z.eqb_neq _ _) Ey);
    try reflexivity.
  congruence.
Qed.

Lemma toggle_twice (x : Z) (u v : bool) (l : Layer.t) :
  toggle_layer x v (toggle_layer x u l) = toggle_layer x v l.
Proof.
  unfold toggle_layer.
  destruct (Layer.id l =? x)%Z eqn:E; cbn [Layer.with_visible Layer.id];
    rewrite E; reflexivity.
Qed.

(** Hiding the layers of an id and showing them again gives back the state
    there was, when they were visible to begin with. *)
Theorem toggle_hide_then_show (st : AppState) (x : Z) :
  (forall l, In l (layers st) -> Layer.id l = x -> Layer.visible l = true) ->
  run (fst (toggleLayerVisibility x true))
    (run (fst (toggleLayerVisibility x false)) st) = st.
Proof.
  intros H. rewrite !run_toggle. cbn [layers selectedFiles selectedColor
    activeFeature activeProperties statusMessage basemap].
  rewrite map_map.
  replace (map (fun l => toggle_layer x true (toggle_layer x false l)) (layers st))
    with (layers st); [now destruct st|].
  rewrite <- (map_id (layers st)) at 1.
  apply map_ext_in. intros l Hl. rewrite toggle_twice.
  unfold toggle_layer. destruct (Z.eqb_spec (Layer.id l) x) as [E|E];
    [|reflexivity].
  rewrite <- (H l Hl E). symmetry. apply with_visible_same.
Qed.

Lemma toggle_hide_then_show_witness :
  let st := mkState [] "#3388ff"
              [Layer.mk 1 "Layer 1" "#3388ff" JNull true;
               Layer.mk 2 "Layer 2" "#3388ff" JNull false]
              None JNull loading_message "osm" in
  run (fst (toggleLayerVisibility 1 true))
    (run (fst (toggleLayerVisibility 1 false)) st) = st.
Proof.
  intros st. apply (toggle_hide_then_show st 1).
  intros l [<-|[<-|[]]]; simpl; intros E; [reflexivity|lia].
Defined.

(** Toggles of different ids can be made in either order, and of two
    toggles of one id the second decides. *)
Theorem toggles_compose (st : AppState) (x y : Z) (u v : bool) :
  (x <> y ->
   run (fst (toggleLayerVisibility x v))
     (run (fst (toggleLayerVisibility y u)) st) =
   run (fst (toggleLayerVisibility y u))
     (run (fst (toggleLayerVisibility x v)) st)) /\
  run (fst (toggleLayerVisibility x v))
    (run (fst (toggleLayerVisibility x u)) st) =
  run (fst (toggleLayerVisibility x v)) st.
Proof.
  rewrite !run_toggle. cbn [layers selectedFiles selectedColor
    activeFeature activeProperties statusMessage basemap].
  rewrite !map_map. split.
  - intros H. f_equal. apply map_ext. intros l. now apply toggle_toggle.
  - f_equal. apply map_ext. intros l. apply toggle_twice.
Qed.

Lemma toggles_compose_witness :
  let st := mkState [] "#3388ff"
              [Layer.mk 1 "Layer 1" "#3388ff" JNull true;
               Layer.mk 2 "Layer 2" "#3388ff" JNull true]
              None JNull loading_message "osm" in
  run (fst (toggleLayerVisibility 1 false))
    (run (fst (toggleLayerVisibility 2 false)) st) =
  run (fst (toggleLayerVisibility 2 false))
    (run (fst (toggleLayerVisibility 1 false)) st).
Proof.
  intros st. apply (proj1 (toggles_compose st 1 2 false false)). lia.
Defined.

(** ** Sessions *)

Lemma perform_all_inflight (effs : list Effect) (w : World) :
  inflight (perform_all effs w) = inflight w.
Proof.
  unfold perform_all. revert w.
  induction effs as [|e r IH]; intros w; [reflexivity|].
  cbn [fold_left]. rewrite IH. now destruct e.
Qed.

Lemma perform_all_timers (effs : list Effect) (w : World) :
  timers (perform_all effs w) = timers w ++ timeouts effs.
Proof.
  unfold perform_all. revert w.
  induction effs as [|e r IH]; intros w; cbn [fold_left timeouts].
  - now rewrite app_nil_r.
  - rewrite IH. destruct e; try reflexivity.
    cbn [perform timers]. now rewrite <- app_assoc.
Qed.

Section SessionProperties.

Variable JSON_parse : string -> JsError + JsVal.

(** What the settling of an attempt does to the state. *)
Lemma settle_layers (snap : AppState) (r : FetchResult) (now : Z)
  (st : AppState) :
  let st' := run (fst (uploadShapefile_settle JSON_parse snap r now)) st in
  (exists suffix, layers st' = layers st ++ suffix) /\
  activeFeature st' = activeFeature st /\
  activeProperties st' = activeProperties st.
Proof.
  unfold uploadShapefile_settle.
  destruct (upload_body_shape JSON_parse snap r now) as [e|e|g]; cbn.
  - split; [exists []; now rewrite app_nil_r|split; reflexivity].
  - split; [exists []; now rewrite app_nil_r|split; reflexivity].
  - split; [eexists; reflexivity|split; reflexivity].
Qed.

Lemma settle_timeouts (snap : AppState) (r : FetchResult) (now : Z) :
  timeouts (fst (uploadShapefile_settle JSON_parse snap r now)) =
  [(5000%Z, hide_status)].
Proof.
  unfold uploadShapefile_settle.
  destruct (upload_body_shape JSON_parse snap r now); reflexivity.
Qed.

Lemma map_identity_toggle (x : Z) (v : bool) (ls : list Layer.t) :
  map layer_identity (map (toggle_layer x v) ls) = map layer_identity ls.
Proof.
  rewrite map_map. apply map_ext. intros l. unfold toggle_layer.
  now destruct (Layer.id l =? x)%Z.
Qed.

Lemma hide_status_only_hides (st : AppState) :
  run hide_status st =
  mkState (selectedFiles st) (selectedColor st) (layers st) (activeFeature st)
    (activeProperties st) (StatusMessage.hidden (statusMessage st))
    (basemap st).
Proof. reflexivity. Qed.

Lemma timers_hide_nth (w : World) (k : nat) (d : Z) (cb : list Effect) :
  timers_hide w -> nth_error (timers w) k = Some (d, cb) ->
  d = 5000%Z /\ cb = hide_status.
Proof.
  intros Hw Hk. unfold timers_hide in Hw. rewrite Forall_forall in Hw.
  specialize (Hw _ (nth_error_In _ _ Hk)). now inversion Hw.
Qed.

(** One event of a session leaves the layers in place, in their order,
    with their id, name, colour and data, and adds layers at the end only. *)
Lemma step_layers_grow (w : World) (ev : Event) :
  timers_hide w ->
  exists suffix,
    map layer_identity (layers (committed (step JSON_parse w ev))) =
    map layer_identity (layers (committed w)) ++ suffix.
Proof.
  intros Hw.
  destruct ev as [files|c| |k r now|k|x v|feature x rnd| ]; cbn [step].
  - rewrite perform_all_committed, handleFiles_selects.
    exists []. now rewrite app_nil_r.
  - exists []. now rewrite app_nil_r.
  - rewrite perform_all_committed. exists []. now rewrite app_nil_r.
  - destruct (nth_error (inflight w) k) as [snap|];
      [|exists []; now rewrite app_nil_r].
    rewrite perform_all_committed. cbn [committed].
    destruct (settle_layers snap r now (committed w)) as [[suffix Hs] _].
    rewrite Hs, map_app. now eexists.
  - destruct (nth_error (timers w) k) as [[d cb]|] eqn:Hk;
      [|exists []; now rewrite app_nil_r].
    destruct (timers_hide_nth w k d cb Hw Hk) as [-> ->].
    rewrite perform_all_committed. exists []. now rewrite app_nil_r.
  - rewrite perform_all_committed, run_toggle. cbn [layers].
    exists []. now rewrite app_nil_r, map_identity_toggle.
  - rewrite perform_all_committed, run_onFeatureClick.
    exists []. now rewrite app_nil_r.
  - rewrite perform_all_committed. exists []. now rewrite app_nil_r.
Qed.

Lemma run_events_app (evs1 evs2 : list Event) (w : World) :
  run_events JSON_parse (evs1 ++ evs2) w =
  run_events JSON_parse evs2 (run_events JSON_parse evs1 w).
Proof. unfold run_events. apply fold_left_app. Qed.

Lemma run_events_layers_grow (evs : list Event) (w : World) :
  timers_hide w ->
  exists suffix,
    map layer_identity (layers (committed (run_events JSON_parse evs w))) =
    map layer_identity (layers (committed w)) ++ suffix.
Proof.
  revert w. induction evs as [|ev r IH]; intros w Hw.
  - exists []. now rewrite app_nil_r.
  - change (run_events JSON_parse (ev :: r) w)
      with (run_events JSON_parse r (step JSON_parse w ev)).
    destruct (IH _ (step_timers_hide JSON_parse w ev Hw)) as [s2 H2].
    destruct (step_layers_grow w ev Hw) as [s1 H1].
    exists (s1 ++ s2). now rewrite H2, H1, app_assoc.
Qed.

(** Whatever happens later in a session, the layers there are stay, in
    their order, with their id, name, colour and data; layers are added at
    the end only, and none is ever removed. *)
Theorem session_layers_append_only (evs later : list Event) :
  exists suffix,
    map layer_identity
      (layers (committed (run_events JSON_parse (evs ++ later) initialWorld))) =
    map layer_identity
      (layers (committed (run_events JSON_parse evs initialWorld))) ++ suffix.
Proof.
  rewrite run_events_app. apply run_events_layers_grow.
  apply run_events_timers_hide. constructor.
Qed.

Lemma step_frames (w : World) (ev : Event) :
  timers_hide w ->
  let st := committed w in
  let st' := committed (step JSON_parse w ev) in
  (if touches_selection ev then True
   else activeFeature st' = activeFeature st /\
        activeProperties st' = activeProperties st) /\
  (if touches_layers ev then True else layers st' = layers st) /\
  (if touches_files ev then True else selectedFiles st' = selectedFiles st) /\
  (if touches_status ev then True else statusMessage st' = statusMessage st).
Proof.
  intros Hw st st'. subst st st'.
  destruct ev as [files|c| |k r now|k|x v|feature x rnd| ];
    cbn [step touches_selection touches_layers touches_files touches_status].
  - rewrite perform_all_committed, handleFiles_selects. repeat split.
  - repeat split.
  - rewrite perform_all_committed. repeat split.
  - destruct (nth_error (inflight w) k) as [snap|]; [|repeat split].
    rewrite perform_all_committed. cbn [committed].
    destruct (settle_layers snap r now (committed w)) as (_ & H1 & H2).
    repeat split; assumption.
  - destruct (nth_error (timers w) k) as [[d cb]|] eqn:Hk; [|repeat split].
    destruct (timers_hide_nth w k d cb Hw Hk) as [-> ->].
    rewrite perform_all_committed. repeat split.
  - rewrite perform_all_committed, run_toggle. repeat split.
  - rewrite perform_all_committed, run_onFeatureClick. repeat split.
  - rewrite perform_all_committed. repeat split.
Qed.

(** In a session, the selection moves on clicks only, the layers on
    toggles and settlings only, the file selection on choices and settlings
    only, and the notification on upload clicks, settlings and timers
    only. *)
Theorem session_frames (evs : list Event) (ev : Event) :
  let w := run_events JSON_parse evs initialWorld in
  let st := committed w in
  let st' := committed (step JSON_parse w ev) in
  (if touches_selection ev then True
   else activeFeature st' = activeFeature st /\
        activeProperties st' = activeProperties st) /\
  (if touches_layers ev then True else layers st' = layers st) /\
  (if touches_files ev then True else selectedFiles st' = selectedFiles st) /\
  (if touches_status ev then True else statusMessage st' = statusMessage st).
Proof.
  intros w. apply step_frames.
  apply run_events_timers_hide. constructor.
Qed.

Lemma has_id_grows (x : Z) (ls ls' : list Layer.t)
  (suffix : list (Z * string * string * JsVal)) :
  map layer_identity ls' = map layer_identity ls ++ suffix ->
  existsb (fun l => (Layer.id l =? x)%Z) ls = true ->
  existsb (fun l => (Layer.id l =? x)%Z) ls' = true.
Proof.
  revert ls'. induction ls as [|l r IH]; intros ls' H; [discriminate|].
  destruct ls' as [|l' r']; [discriminate|].
  cbn [map List.app] in H. injection H as Hid _ _ _ Hr.
  cbn [existsb]. intros E. apply orb_true_iff in E. apply orb_true_iff.
  destruct E as [E|E].
  - left. now rewrite Hid.
  - right. now apply IH.
Qed.

Lemma existsb_filter_weaken {A} (p q : A -> bool) (l : list A) :
  existsb p (filter q l) = true -> existsb p l = true.
Proof.
  induction l as [|a r IH]; [discriminate|]. cbn [filter existsb].
  destruct (q a); cbn [existsb]; intros E; apply orb_true_iff.
  - apply orb_true_iff in E. destruct E; [now left|right; now apply IH].
  - right. now apply IH.
Qed.

Lemma step_selection_owned (w : World) (ev : Event) :
  timers_hide w ->
  selection_owned (committed w) = true ->
  clicks_on_drawn_layers JSON_parse [ev] w = true ->
  selection_owned (committed (step JSON_parse w ev)) = true.
Proof.
  intros Hw Hown Hclick.
  destruct (step_layers_grow w ev Hw) as [suffix Hgrow].
  pose proof (step_frames w ev Hw) as Hfr. cbn zeta in Hfr.
  destruct (touches_selection ev) eqn:Hts.
  - destruct ev as [files|c| |k r now|k|x v|feature x rnd| ]; try discriminate.
    + cbn [clicks_on_drawn_layers] in Hclick. rewrite andb_true_r in Hclick.
      cbn [step]. rewrite perform_all_committed, run_onFeatureClick.
      unfold selection_owned.
      cbn [activeFeature ActiveFeature.layerId layers].
      now apply existsb_filter_weaken in Hclick.
    + cbn [step]. now rewrite perform_all_committed.
  - destruct Hfr as [[Haf _] _].
    unfold selection_owned in *. rewrite Haf.
    destruct (activeFeature (committed w)) as [af|]; [|reflexivity].
    exact (has_id_grows _ _ _ _ Hgrow Hown).
Qed.

Lemma run_events_selection_owned (evs : list Event) (w : World) :
  timers_hide w ->
  selection_owned (committed w) = true ->
  clicks_on_drawn_layers JSON_parse evs w = true ->
  selection_owned (committed (run_events JSON_parse evs w)) = true.
Proof.
  revert w. induction evs as [|ev r IH]; intros w Hw Hown Hclicks;
    [exact Hown|].
  change (run_events JSON_parse (ev :: r) w)
    with (run_events JSON_parse r (step JSON_parse w ev)).
  cbn [clicks_on_drawn_layers] in Hclicks.
  apply andb_true_iff in Hclicks. destruct Hclicks as [Hc Hr].
  apply IH; [now apply step_timers_hide| |exact Hr].
  apply step_selection_owned; [exact Hw|exact Hown|].
  cbn [clicks_on_drawn_layers]. now rewrite Hc.
Qed.

(** In a session whose feature clicks land on layers that are drawn, the
    active feature always belongs to a layer of the collection, also after
    that layer is hidden: the selection never dangles. *)
Theorem session_selection_owned (evs : list Event) :
  clicks_on_drawn_layers JSON_parse evs initialWorld = true ->
  selection_owned (committed (run_events JSON_parse evs initialWorld)) = true.
Proof.
  apply run_events_selection_owned; [constructor|reflexivity].
Qed.

(** Settling an attempt in flight takes that attempt, and no other, off
    the attempts in flight and sets one 5-second timer more, whatever the
    outcome; the timers set before stay. *)
Theorem settle_accounting
  (w : World) (k : nat) (snap : AppState) (r : FetchResult) (now : Z) :
  nth_error (inflight w) k = Some snap ->
  let w' := step JSON_parse w (FetchSettled k r now) in
  inflight w' = remove_nth k (inflight w) /\
  timers w' = timers w ++ [(5000%Z, hide_status)] /\
  committed w' =
    run (fst (uploadShapefile_settle JSON_parse snap r now)) (committed w).
Proof.
  intros Hk w'. subst w'. cbn [step]. rewrite Hk.
  rewrite perform_all_inflight, perform_all_timers, perform_all_committed,
    settle_timeouts.
  repeat split.
Qed.

End SessionProperties.

Definition click_then_hide_session : list Event :=
  [UploadClicked;
   FetchSettled 0
     (Responded 200 (inr (JObj [("type", JStr "FeatureCollection")]))) 41;
   FeatureClicked parcel 41 "k3x9";
   VisibilityToggled 41 false;
   TimerFired 0].

Lemma session_selection_owned_witness :
  selection_owned
    (committed (run_events parse_literal click_then_hide_session initialWorld))
  = true.
Proof.
  apply (session_selection_owned parse_literal click_then_hide_session).
  reflexivity.
Defined.

Lemma settle_accounting_witness :
  let w := run_events parse_literal [UploadClicked; UploadClicked] initialWorld in
  let w' := step parse_literal w
              (FetchSettled 1 (Rejected (mkError "Failed to fetch")) 0) in
  length (inflight w') = 1%nat /\ length (timers w') = 1%nat.
Proof.
  intros w w'.
  destruct (settle_accounting parse_literal w 1 (committed w)
              (Rejected (mkError "Failed to fetch")) 0 eq_refl)
    as (Hi & Ht & _).
  split; [exact (f_equal (@length _) Hi)|exact (f_equal (@length _) Ht)].
Defined.

(** ** What the map shows *)

(** After a feature of the layer [L] is clicked, every feature of every
    layer of id [L] is drawn in the active style and every other layer in
    the inactive one, whichever feature was clicked: the highlight is the
    layer's.  The inspector shows the properties of the clicked feature
    when they are truthy and nothing otherwise.  After a click on the map,
    every layer is drawn in the inactive style and the inspector is gone. *)
Theorem clicks_restyle_whole_layers
  (snap st : AppState) (clicked : Feature.t) (L : Z) (rnd : string)
  (layer : Layer.t) (feature : Feature.t) :
  let st1 := run (fst (onFeatureClick snap clicked L rnd)) st in
  let st2 := run (fst onMapClick) st in
  layerStyle st1 layer feature =
    getLayerStyle (Layer.id layer =? L)%Z (Layer.color layer) /\
  inspector st1 =
    (if truthy (Feature.properties clicked)
     then Some (Feature.properties clicked) else None) /\
  layerStyle st2 layer feature = getLayerStyle false (Layer.color layer) /\
  inspector st2 = None.
Proof.
  intros st1 st2. subst st1 st2. rewrite run_onFeatureClick.
  unfold layerStyle, isActive, inspector; cbn.
  rewrite (Z.eqb_sym L). repeat split.
Qed.

(** At most one base layer is drawn: one when the base map is "osm",
    "satellite" or "topo", none for any other value. *)
Theorem tileLayers_at_most_one (st : AppState) :
  length (tileLayers st) =
  if existsb (String.eqb (basemap st)) ["osm"; "satellite"; "topo"]
  then 1%nat else 0%nat.
Proof.
  unfold tileLayers. cbn [existsb].
  destruct (basemap st =? "osm") eqn:E1,
           (basemap st =? "satellite") eqn:E2,
           (basemap st =? "topo") eqn:E3; try reflexivity;
    repeat match goal with
           | H : (_ =? _) = true |- _ => apply String.eqb_eq in H
           end; congruence.
Qed.

Section MapUpdaterProperties.

Variable Bounds : Type.
Variable geoJSON_getBounds : JsVal -> JsError + Bounds.
Variable isValid : Bounds -> bool.
Variable fitBounds_throws : Bounds -> option JsError.

Lemma toggle_layer_data (x : Z) (v : bool) (l : Layer.t) :
  Layer.data (toggle_layer x v l) = Layer.data l.
Proof. unfold toggle_layer. now destruct (Layer.id l =? x)%Z. Qed.

(** The view is fitted to the data of the last layer of the collection and
    of no other, drawn or hidden: to the new layer after an append, and to
    the same layer as before after a visibility toggle.  With no layer the
    effect does nothing, and it makes one call of [fitBounds] at most. *)
Theorem fit_to_last_target (ls : list Layer.t) (l : Layer.t) (x : Z) (v : bool) :
  let fit := fit_to_last Bounds geoJSON_getBounds isValid fitBounds_throws in
  fit (ls ++ [l]) =
    fit_data Bounds geoJSON_getBounds isValid fitBounds_throws (Layer.data l) /\
  fit (map (toggle_layer x v) ls) = fit ls /\
  fit [] = [] /\
  (length (filter (fun c => match c with FitBounds _ => true | _ => false end)
             (fit ls)) <= 1)%nat.
Proof.
  intros fit. subst fit.
  split; [|split; [|split]].
  - unfold fit_to_last. rewrite length_app. cbn [length].
    replace (0 <? length ls + 1)%nat with true
      by (symmetry; apply Nat.ltb_lt; lia).
    replace (length ls + 1 - 1)%nat with (length ls) by lia.
    now rewrite nth_error_app2, Nat.sub_diag by lia.
  - unfold fit_to_last. rewrite length_map, nth_error_map.
    destruct (0 <? length ls)%nat; [|reflexivity].
    destruct (nth_error ls (length ls - 1)); cbn [option_map];
      [now rewrite toggle_layer_data|reflexivity].
  - reflexivity.
  - unfold fit_to_last, fit_data.
    destruct (0 <? length ls)%nat; [|cbn; lia].
    destruct (nth_error ls (length ls - 1)) as [lastLayer|]; [|cbn; lia].
    destruct (geoJSON_getBounds (Layer.data lastLayer)) as [e|b]; [cbn; lia|].
    destruct (isValid b); [|cbn; lia].
    destruct (fitBounds_throws b); cbn; lia.
Qed.

End MapUpdaterProperties.

(** ** File sizes *)

(** Rounding to one decimal is to the nearest tenth. *)
Lemma tenths_nearest (num den : Z) :
  (0 < den)%Z ->
  (2 * den * tenths num den <= 20 * num + den < 2 * den * tenths num den + 2 * den)%Z.
Proof.
  intros Hd. unfold tenths.
  pose proof (Z.div_mod (20 * num + den) (2 * den) ltac:(lia)) as Hdm.
  pose proof (Z.mod_pos_bound (20 * num + den) (2 * den) ltac:(lia)) as Hm.
  lia.
Qed.

(** From 1024 bytes on, the size is shown in kilobytes below 1048576 bytes
    and in megabytes from there on, to the nearest tenth: what is shown is
    within a twentieth of a unit of the size, and is 1.0 at least. *)
Theorem formatFileSize_accuracy (bytes : Z) :
  (1024 <= bytes)%Z ->
  let unit_size := if (bytes <? 1048576)%Z then 1024%Z else 1048576%Z in
  let suffix := if (bytes <? 1048576)%Z then " KB" else " MB" in
  let t := tenths bytes unit_size in
  formatFileSize bytes = (toFixed1 bytes unit_size ++ suffix)%string /\
  (10 <= t)%Z /\
  (Z.abs (unit_size * t - 10 * bytes) * 2 <= unit_size)%Z.
Proof.
  intros Hs. unfold formatFileSize.
  destruct (Z.ltb_spec bytes 1024) as [Hlt|_]; [lia|].
  destruct (Z.ltb_spec bytes 1048576) as [Hk|Hk]; cbn zeta.
  - pose proof (tenths_nearest bytes 1024 ltac:(lia)) as Hn.
    repeat split; lia.
  - pose proof (tenths_nearest bytes 1048576 ltac:(lia)) as Hn.
    repeat split; lia.
Qed.

(** Just below a megabyte the size is shown as 1024.0 KB: the last 51
    sizes of the kilobyte range round up to 1024 kilobytes and keep the
    unit. *)
Theorem formatFileSize_top_of_KB (bytes : Z) :
  (1048525 <= bytes < 1048576)%Z ->
  formatFileSize bytes = "1024.0 KB".
Proof.
  intros [Hlo Hhi]. unfold formatFileSize.
  destruct (Z.ltb_spec bytes 1024) as [Hs|_]; [lia|].
  destruct (Z.ltb_spec bytes 1048576) as [_|Hk]; [|lia].
  assert (Ht : tenths bytes 1024 = 10240%Z).
  { unfold tenths. symmetry.
    apply (Z.div_unique _ _ _ (20 * bytes + 1024 - 2 * 1024 * 10240)); lia. }
  unfold toFixed1. rewrite Ht. reflexivity.
Qed.

Lemma formatFileSize_top_of_KB_witness :
  formatFileSize 1048575 = "1024.0 KB".
Proof. apply (formatFileSize_top_of_KB 1048575). lia. Defined.

Lemma formatFileSize_accuracy_witness :
  formatFileSize 1536 = "1.5 KB" /\ formatFileSize 5767168 = "5.5 MB".
Proof.
  split.
  - apply (proj1 (formatFileSize_accuracy 1536 ltac:(lia))).
  - apply (proj1 (formatFileSize_accuracy 5767168 ltac:(lia))).
Defined.

(** ** Extensions, read from the name and read by the loop *)

(** What follows the last dot of a name; nothing for a name without a dot. *)
Fixpoint after_last_dot (s : string) : option string :=
  match s with
  | EmptyString => None
  | String c r =>
      match after_last_dot r with
      | Some e => Some e
      | None => if Ascii.eqb c "." then Some r else None
      end
  end.

(** The extension of a file name: what follows its last dot, in lower
    case.  A name without a dot has no extension. *)
Definition dotted_extension (name : string) : option string :=
  option_map toLowerCase (after_last_dot name).

Definition ext_is (x : string) (file : File.t) : bool :=
  match dotted_extension (File.name file) with
  | Some e => e =? x
  | None => false
  end.

Lemma split_after_last_dot (s : string) :
  match after_last_dot s with
  | None => split "." s = [s]
  | Some e => exists pre, pre <> [] /\ split "." s = pre ++ [e]
  end.
Proof.
  induction s as [|c r IH]; [reflexivity|].
  cbn [after_last_dot split].
  destruct (after_last_dot r) as [e|].
  - destruct IH as (pre & Hpre & Hs). rewrite Hs.
    destruct (Ascii.eqb c ".").
    + exists (EmptyString :: pre). split; [discriminate|reflexivity].
    + destruct pre as [|h t]; [contradiction|].
      exists (String c h :: t). split; [discriminate|reflexivity].
  - rewrite IH. destruct (Ascii.eqb c ".").
    + exists [EmptyString]. split; [discriminate|reflexivity].
    + reflexivity.
Qed.

(** The loop reads the extension of a name that has a dot, and the whole
    name of a name that has none. *)
Lemma extension_refines (name : string) :
  extension name =
  inr (match dotted_extension name with
       | Some e => e
       | None => toLowerCase name
       end).
Proof.
  unfold extension, dotted_extension.
  pose proof (split_after_last_dot name) as H.
  destruct (after_last_dot name) as [e|]; cbn [option_map].
  - destruct H as (pre & _ & ->). now rewrite pop_app by discriminate.
  - now rewrite H.
Qed.

Lemma has_ext_dotted (x : string) (file : File.t) :
  after_last_dot (File.name file) <> None -> has_ext x file = ext_is x file.
Proof.
  intros H. unfold has_ext, ext_is. rewrite extension_refines.
  unfold dotted_extension.
  destruct (after_last_dot (File.name file)); [reflexivity|contradiction].
Qed.

Lemma relevant_file_dotted (file : File.t) :
  after_last_dot (File.name file) <> None ->
  relevant_file file =
  existsb (fun x => ext_is x file) ["shp"; "shx"; "dbf"].
Proof.
  intros H. cbn [existsb]. rewrite <- !(has_ext_dotted _ _ H).
  unfold relevant_file, has_ext.
  destruct (extension (File.name file)) as [e|ext]; [reflexivity|].
  rewrite is_relevant_cases. now rewrite orb_false_r, orb_assoc.
Qed.

Lemma existsb_has_ext_dotted (x : string) (files : list File.t) :
  Forall (fun f => after_last_dot (File.name f) <> None) files ->
  existsb (has_ext x) files = existsb (ext_is x) files.
Proof.
  induction 1 as [|f r Hf Hr IH]; [reflexivity|].
  cbn [existsb]. now rewrite (has_ext_dotted x f Hf), IH.
Qed.

(** When every chosen name has a dot, [handleFiles] keeps the files whose
    extension is one of the three, in order, answers complete exactly when
    each of the three is the extension of a chosen file, and lists as
    missing exactly the others. *)
Lemma handleFiles_dotted_names (files : list File.t) :
  Forall (fun f => after_last_dot (File.name f) <> None) files ->
  handleFiles files =
  ([SetSelectedFiles
      (filter (fun f => existsb (fun x => ext_is x f) ["shp"; "shx"; "dbf"])
         files)],
   inr (mkCompleteness
          (forallb (fun x => existsb (ext_is x) files) ["shp"; "shx"; "dbf"])
          (map (String.append ".")
             (filter (fun x => negb (existsb (ext_is x) files))
                ["shp"; "shx"; "dbf"])))).
Proof.
  intros H. rewrite handleFiles_selects.
  assert (Hf : filter relevant_file files =
               filter (fun f => existsb (fun x => ext_is x f)
                                  ["shp"; "shx"; "dbf"]) files).
  { apply filter_ext_in. intros f Hin. apply relevant_file_dotted.
    rewrite Forall_forall in H. now apply H. }
  assert (He : forall x, existsb (has_ext x) files = existsb (ext_is x) files)
    by (intros x; now apply existsb_has_ext_dotted).
  rewrite Hf, !He. cbn [forallb filter]. unfold getMissingFiles.
  destruct (existsb (ext_is "shp") files), (existsb (ext_is "shx") files),
           (existsb (ext_is "dbf") files); reflexivity.
Qed.

(** C8 (the code departs from the claim): three files named "shp", "SHX"
    and "dbf" have no extension, yet [handleFiles] keeps the three, answers
    that the selection is complete and lists nothing as missing, where the
    claim has it complete only with a file of each extension. *)
Theorem handleFiles_complete_without_extensions :
  let files := [File.mk "shp" 0; File.mk "SHX" 0; File.mk "dbf" 0] in
  map (fun f => has_dot (File.name f)) files = [false; false; false] /\
  map (fun f => dotted_extension (File.name f)) files = [None; None; None] /\
  handleFiles files =
  ([SetSelectedFiles files], inr (mkCompleteness true [])).
Proof. repeat split. Qed.

(** ** Layers that share an id *)

(** C9 (the code departs from the claim): two uploads started before
    either settles and settling in the same millisecond leave two layers,
    of different data, under one id; hiding the first by its id hides the
    second as well, where the claim has every other layer keep its
    [visible]. *)
Theorem toggle_hides_layers_sharing_id :
  let roads := JObj [("name", JStr "roads")] in
  let parcels := JObj [("name", JStr "parcels")] in
  let w := run_events parse_literal
             [UploadClicked; UploadClicked;
              FetchSettled 0 (Responded 200 (inr roads)) 1700000000000;
              FetchSettled 0 (Responded 200 (inr parcels)) 1700000000000]
             initialWorld in
  let w' := step parse_literal w (VisibilityToggled 1700000000000 false) in
  map Layer.data (layers (committed w)) = [roads; parcels] /\
  map Layer.visible (layers (committed w)) = [true; true] /\
  map Layer.data (layers (committed w')) = [roads; parcels] /\
  map Layer.visible (layers (committed w')) = [false; false].
Proof. repeat split. Qed.
